(** * Water Quality Dashboard (app.py): loading, median imputation and page routing

    The program is a Streamlit script.  It reads a CSV with pandas, fills the
    missing cells of every numeric column with the column median
    ([load_data]), and renders one of six pages chosen in the sidebar.

    Embedding.
    - A DataFrame is an ordered association list from column names to
      columns.  A column of dtype int64/float64 is [NumCol]; its cells are
      [option Q], [None] being NaN, the marker pandas uses for a missing
      cell.  Every other dtype (object, bool, ...) is [ObjCol].  The finite
      float64 values are modelled by the rationals they are, kept in lowest
      terms; the infinities are not values of the embedding.  The median is
      computed exactly, where the program rounds to float64: the two agree
      when the number of values is odd (the median is one of them) and when
      the sum of two values and its half are float64 numbers
      ([exact_median]); the properties that depend on the value of the
      median are stated under that condition.
    - The pandas calls used by the script ([read_csv], [select_dtypes],
      [median], [fillna], item access and assignment, [value_counts]) are
      modelled by the functions of [Module pd].  Reading the file is a
      parameter of the environment ([world]): the CSV text itself is not
      modelled, a read either yields the parsed frame or raises.
    - Streamlit output is a log of [event]s; a script is a computation in
      the monad [St], which carries the log and may raise a Python
      exception.  The operations that can raise are file access, item
      access by key, the pandas shape checks and the matplotlib calls that
      build a figure ([Module ax]): a text column with a gap cannot be
      drawn, a histogram needs a value, a pie needs a wedge. *)

From Stdlib Require Import String Ascii DecimalString Bool Arith ZArith QArith Qreduction.
From Stdlib Require Import Lia Lqa List Permutation Sorted.
Import ListNotations.

Local Close Scope Q_scope.
Local Open Scope string_scope.
Local Open Scope list_scope.
Local Open Scope nat_scope.

(** ** Python exceptions *)

Inductive exn : Type :=
| FileNotFoundError (msg : string)
| KeyError (key : option string)
| TypeError (msg : string)
| ValueError (msg : string)
| MediaFileStorageError (msg : string)
| OtherException (msg : string).

(** [str(e)], as interpolated by the f-string of [load_data]. *)
Definition exn_str (e : exn) : string :=
  match e with
  | FileNotFoundError m => m
  | KeyError (Some k) => "'" ++ k ++ "'"
  | KeyError None => "None"
  | TypeError m => m
  | ValueError m => m
  | MediaFileStorageError m => m
  | OtherException m => m
  end.

Inductive outcome (A : Type) : Type :=
| Ret (a : A)
| Raise (e : exn).
Arguments Ret {A} a.
Arguments Raise {A} e.

(** ** DataFrames *)

Inductive column : Type :=
| NumCol (cells : list (option Q))
| ObjCol (cells : list (option string)).

Definition DataFrame : Type := list (string * column).

(** A Series indexed by column names, holding floats (the result of
    [DataFrame.median]). *)
Definition Series : Type := list (string * option Q).

Definition columns (df : DataFrame) : list string := map fst df.

Definition col_length (c : column) : nat :=
  match c with
  | NumCol cells => length cells
  | ObjCol cells => length cells
  end.

(** [df.shape[0]] *)
Definition nrows (df : DataFrame) : nat :=
  match df with
  | [] => 0
  | (_, c) :: _ => col_length c
  end.

(** [df.shape[1]] *)
Definition ncols (df : DataFrame) : nat := length df.

Fixpoint lookup {V : Type} (l : list (string * V)) (k : string) : option V :=
  match l with
  | [] => None
  | (k', v) :: rest => if String.eqb k' k then Some v else lookup rest k
  end.

(** Frames as [read_csv] builds them: column names are unique (pandas renames
    duplicates of the header) and all columns have one length. *)
Definition wf_frame (df : DataFrame) : Prop :=
  NoDup (columns df) /\ Forall (fun kc => col_length (snd kc) = nrows df) df.

Definition dropna {A : Type} (cells : list (option A)) : list A :=
  flat_map (fun c => match c with Some v => [v] | None => [] end) cells.

Definition isnull_count (c : column) : nat :=
  match c with
  | NumCol cells => length cells - length (dropna cells)
  | ObjCol cells => length cells - length (dropna cells)
  end.

Definition is_nan {A : Type} (x : option A) : bool :=
  match x with
  | None => true
  | Some _ => false
  end.

Definition has_missing (c : column) : bool :=
  match c with
  | NumCol cells => existsb is_nan cells
  | ObjCol cells => existsb is_nan cells
  end.

Definition fill_cells {A : Type} (v : A) (cells : list (option A)) : list (option A) :=
  map (fun c => match c with None => Some v | Some _ => c end) cells.

(** ** The environment

    What the script reads from disk: the CSV behind a path, as pandas parses
    it (or the exception the read raises), and whether an image file can be
    opened. *)

Record world : Type := {
  csv_files : string -> outcome DataFrame;
  image_files : string -> bool
}.

(** ** The pandas operations used by the script *)

Module pd.

(** [pd.read_csv(path)] *)
Definition read_csv (w : world) (path : string) : outcome DataFrame :=
  csv_files w path.

Definition is_number (c : column) : bool :=
  match c with
  | NumCol _ => true
  | ObjCol _ => false
  end.

(** [df.select_dtypes(include="number")] *)
Definition select_dtypes_number (df : DataFrame) : DataFrame :=
  filter (fun kc => is_number (snd kc)) df.

(** [df[key]] for a single key; the key [None] is what an empty
    selectbox returns. *)
Definition getitem (df : DataFrame) (key : option string) : outcome column :=
  match key with
  | None => Raise (KeyError None)
  | Some k =>
      match lookup df k with
      | Some c => Ret c
      | None => Raise (KeyError (Some k))
      end
  end.

(** [df[keys]] for a list of keys: the sub-frame, in the order of the keys. *)
Fixpoint getitem_list (df : DataFrame) (keys : list string) : outcome DataFrame :=
  match keys with
  | [] => Ret []
  | k :: rest =>
      match lookup df k with
      | None => Raise (KeyError (Some k))
      | Some c =>
          match getitem_list df rest with
          | Ret sub => Ret ((k, c) :: sub)
          | Raise e => Raise e
          end
      end
  end.

Fixpoint insert_sorted (x : Q) (s : list Q) : list Q :=
  match s with
  | [] => [x]
  | y :: rest => if Qle_bool x y then x :: s else y :: insert_sorted x rest
  end.

Definition sort (xs : list Q) : list Q := fold_right insert_sorted [] xs.

(** Median of the values left after NaN is skipped: the middle one of the
    sorted values, or the mean of the two middle ones; NaN when nothing is
    left.  The mean is the exact one: it is the float64 mean of the program
    when that is computed without rounding or overflow ([exact_mean]). *)
Definition median_values (xs : list Q) : option Q :=
  let s := sort xs in
  let n := length s in
  if Nat.eqb n 0 then None
  else if Nat.odd n then nth_error s (n / 2)
  else match nth_error s (n / 2 - 1), nth_error s (n / 2) with
       | Some a, Some b => Some (Qred ((a + b) / 2)%Q)
       | _, _ => None
       end.

(** [df.median()]: one value per column, skipping NaN.  A column that is
    not numeric cannot be reduced. *)
Fixpoint median (df : DataFrame) : outcome Series :=
  match df with
  | [] => Ret []
  | (k, NumCol cells) :: rest =>
      match median rest with
      | Ret s => Ret ((k, median_values (dropna cells)) :: s)
      | Raise e => Raise e
      end
  | (k, ObjCol _) :: _ => Raise (TypeError "could not convert string to float")
  end.

(** [df.fillna(value)] with a Series [value]: in each column that [value]
    has an entry for, NaN cells become that entry; a NaN entry fills
    nothing.  The script only calls it on [df[numeric_cols]], so an object
    column, which no numeric entry can be stored into here, is kept. *)
Definition fillna (df : DataFrame) (value : Series) : DataFrame :=
  map (fun kc =>
         match snd kc, lookup value (fst kc) with
         | NumCol cells, Some (Some m) => (fst kc, NumCol (fill_cells m cells))
         | _, _ => kc
         end) df.

(** [df[k] = c]: replaces the column named [k] where it stands, or appends
    a new column. *)
Fixpoint setitem (df : DataFrame) (k : string) (c : column) : DataFrame :=
  match df with
  | [] => [(k, c)]
  | (k', c') :: rest =>
      if String.eqb k' k then (k, c) :: rest else (k', c') :: setitem rest k c
  end.

Fixpoint setitem_pairs (df : DataFrame) (kk : list (string * string))
         (value : DataFrame) : outcome DataFrame :=
  match kk with
  | [] => Ret df
  | (k1, k2) :: rest =>
      match lookup value k2 with
      | None => Raise (KeyError (Some k2))
      | Some c => setitem_pairs (setitem df k1 c) rest value
      end
  end.

(** [df[keys] = value] with a DataFrame [value]: the lengths must agree,
    then [df[k1] = value[k2]] for the keys and the columns of [value]
    taken in pairs. *)
Definition setitem_list (df : DataFrame) (keys : list string)
           (value : DataFrame) : outcome DataFrame :=
  if Nat.eqb (length keys) (length (columns value))
  then setitem_pairs df (combine keys (columns value)) value
  else Raise (ValueError "Columns must be same length as key").

Inductive value : Type :=
| VNum (q : Q)
| VStr (s : string).

Definition value_eqb (a b : value) : bool :=
  match a, b with
  | VNum x, VNum y => Qeq_bool x y
  | VStr x, VStr y => String.eqb x y
  | _, _ => false
  end.

Definition values (c : column) : list value :=
  match c with
  | NumCol cells => map VNum (dropna cells)
  | ObjCol cells => map VStr (dropna cells)
  end.

Fixpoint count_value (v : value) (counts : list (value * nat)) : list (value * nat) :=
  match counts with
  | [] => [(v, 1)]
  | (w, n) :: rest =>
      if value_eqb w v then (w, S n) :: rest else (w, n) :: count_value v rest
  end.

(** Puts a category where its count belongs, before the categories that
    were counted later and have no larger count. *)
Fixpoint insert_count (vn : value * nat) (s : list (value * nat))
  : list (value * nat) :=
  match s with
  | [] => [vn]
  | wm :: rest =>
      if Nat.leb (snd wm) (snd vn) then vn :: s else wm :: insert_count vn rest
  end.

Definition sort_counts (counts : list (value * nat)) : list (value * nat) :=
  fold_right insert_count [] counts.

(** [series.value_counts()]: the distinct values that are not NaN, each
    with its number of occurrences, by decreasing count; categories of equal
    count stand in order of first occurrence. *)
Definition value_counts (c : column) : list (value * nat) :=
  sort_counts (fold_left (fun acc v => count_value v acc) (values c) []).

End pd.

(** ** Streamlit: output events and the script monad *)

Inductive table : Type :=
| TFrame (df : DataFrame)
| TIsnullSum (counts : list (string * nat))
| TDescribe (df : DataFrame)
| TCounts (counts : list (pd.value * nat)).

Inductive figure : Type :=
| LinePlot (ys : column) (xlabel ylabel title : string)
| Histogram (xs : column) (bins : nat) (xlabel ylabel title : string)
| PieChart (counts : list (pd.value * nat)) (labels : list (option string))
           (title : string).

Inductive event : Type :=
| PageConfig (page_title page_icon layout : string)
| SidebarTitle (s : string)
| SidebarRadio (label : string) (options : list string)
| Title (s : string)
| Subheader (s : string)
| Markdown (s : string)
| Image (path caption : string)
| Write (s : string)
| WriteList (l : list string)
| Dataframe (t : table)
| Selectbox (label : string) (options : list string)
| Pyplot (f : figure)
| Warning (s : string)
| Error (s : string).

(** A script step: its result or the exception it raised, and what it put
    on the page. *)
Definition St (A : Type) : Type := outcome A * list event.

Definition ret {A : Type} (a : A) : St A := (Ret a, []).

Definition bind {A B : Type} (m : St A) (k : A -> St B) : St B :=
  match m with
  | (Ret a, log) => let (r, log') := k a in (r, log ++ log')
  | (Raise e, log) => (Raise e, log)
  end.

Definition lift {A : Type} (o : outcome A) : St A := (o, []).

Definition emit (e : event) : St unit := (Ret tt, [e]).

(** [try: body  except ... as e: handler e] *)
Definition try_except {A : Type} (body : St A) (handler : exn -> St A) : St A :=
  match body with
  | (Ret a, log) => (Ret a, log)
  | (Raise e, log) => let (r, log') := handler e in (r, log ++ log')
  end.

Declare Scope st_scope.
Delimit Scope st_scope with st.
Notation "x <- m ;; k" := (bind m (fun x => k))
  (at level 100, m at next level, right associativity) : st_scope.
Notation "m ;; k" := (bind m (fun _ => k))
  (at level 100, right associativity) : st_scope.
Local Open Scope st_scope.

(** What the user did with the two widgets of the page: the index picked in
    the sidebar radio and in the selectbox. *)
Record UI : Type := {
  radio_index : nat;
  selectbox_index : nat
}.

(** The option a single-choice widget returns: the picked one, the first one
    when nothing valid is picked, [None] when there are no options. *)
Definition chosen (options : list string) (i : nat) : option string :=
  match nth_error options i with
  | Some o => Some o
  | None => hd_error options
  end.

Module st.

Definition set_page_config (page_title page_icon layout : string) : St unit :=
  emit (PageConfig page_title page_icon layout).
Definition title (s : string) : St unit := emit (Title s).
Definition subheader (s : string) : St unit := emit (Subheader s).
Definition markdown (s : string) : St unit := emit (Markdown s).
Definition write (s : string) : St unit := emit (Write s).
Definition write_list (l : list string) : St unit := emit (WriteList l).
Definition dataframe (t : table) : St unit := emit (Dataframe t).
Definition pyplot (f : figure) : St unit := emit (Pyplot f).
Definition warning (s : string) : St unit := emit (Warning s).
Definition error (s : string) : St unit := emit (Error s).

(** [st.image(path, caption=...)] opens the file. *)
Definition image (w : world) (path caption : string) : St unit :=
  if image_files w path then emit (Image path caption)
  else lift (Raise (MediaFileStorageError ("Error opening '" ++ path ++ "'"))).

Definition selectbox (ui : UI) (label : string) (options : list string)
  : St (option string) :=
  emit (Selectbox label options) ;;
  ret (chosen options (selectbox_index ui)).

Module sidebar.
Definition title (s : string) : St unit := emit (SidebarTitle s).
Definition radio (ui : UI) (label : string) (options : list string)
  : St (option string) :=
  emit (SidebarRadio label options) ;;
  ret (chosen options (radio_index ui)).
End sidebar.

End st.

(** ** matplotlib: the calls that build a figure

    Each call either draws or raises; what is drawn is the [figure] handed to
    [st.pyplot] afterwards. *)

Module ax.

(** A text column with a gap: an object array that holds strings and NaN. *)
Definition mixed_text (c : column) : bool :=
  match c with
  | NumCol _ => false
  | ObjCol cells => existsb is_nan cells && negb (Nat.eqb (length (dropna cells)) 0)
  end.

(** A column that has rows and no value in any of them. *)
Definition all_nan (c : column) : bool :=
  match c with
  | NumCol cells => negb (Nat.eqb (length cells) 0) && Nat.eqb (length (dropna cells)) 0
  | ObjCol cells => negb (Nat.eqb (length cells) 0) && Nat.eqb (length (dropna cells)) 0
  end.

(** [ax.plot(series, ...)]: strings are drawn on a categorical axis, whose
    converter takes str values only. *)
Definition plot (ys : column) : outcome unit :=
  if mixed_text ys
  then Raise (TypeError "'value' must be an instance of str or bytes, not a float")
  else Ret tt.

(** [ax.hist(series, bins=20, ...)]: text as for [plot]; the range of the
    bins is taken from the values, and NaN alone gives none. *)
Definition hist (xs : column) : outcome unit :=
  if mixed_text xs
  then Raise (TypeError "'value' must be an instance of str or bytes, not a float")
  else if all_nan xs
       then Raise (ValueError "autodetected range of [nan, nan] is not finite")
       else Ret tt.

(** [ax.pie(counts, labels=..., ...)]: a table without a row raises. *)
Definition pie (counts : list (pd.value * nat)) : outcome unit :=
  match counts with
  | [] => Raise (ValueError "All wedge sizes are zero")
  | _ :: _ => Ret tt
  end.

End ax.

(** ** Load Data *)

Definition default_csv_path : string := "data/water_potability.csv".

(** [load_data(csv_path)]: the frame with the missing numeric values filled
    with the column median, or [None] after reporting the failure.  The
    decorator [st.cache_data] replays the result and the message of the first
    call for a path; one run of the function is what is embedded. *)
Definition load_data (w : world) (csv_path : string) : St (option DataFrame) :=
  try_except
    (df <- lift (pd.read_csv w csv_path) ;;
     let numeric_cols := columns (pd.select_dtypes_number df) in
     sub <- lift (pd.getitem_list df numeric_cols) ;;
     sub' <- lift (pd.getitem_list df numeric_cols) ;;
     med <- lift (pd.median sub') ;;
     df' <- lift (pd.setitem_list df numeric_cols (pd.fillna sub med)) ;;
     ret (Some df'))
    (fun e =>
       match e with
       | FileNotFoundError _ =>
           st.error ("File not found: " ++ csv_path) ;;
           ret None
       | _ =>
           st.error ("Error loading data: " ++ exn_str e) ;;
           ret None
       end).

(** ** The pages *)

(** The decimal numeral an f-string prints for a count. *)
Definition nat_str (n : nat) : string := NilEmpty.string_of_uint (Nat.to_uint n).

(** [x == s] for the value a widget returned. *)
Definition py_eq (x : option string) (s : string) : bool :=
  match x with
  | Some y => String.eqb y s
  | None => false
  end.

Definition opt_str (x : option string) : string :=
  match x with
  | Some y => y
  | None => "None"
  end.

(** [data.head(n)] *)
Definition head (n : nat) (df : DataFrame) : DataFrame :=
  map (fun kc =>
         (fst kc,
          match snd kc with
          | NumCol cells => NumCol (firstn n cells)
          | ObjCol cells => ObjCol (firstn n cells)
          end)) df.

(** [data.isnull().sum()] *)
Definition isnull_sum (df : DataFrame) : list (string * nat) :=
  map (fun kc => (fst kc, isnull_count (snd kc))) df.

(** [[col for col in data.columns if col != "Potability"]] *)
Definition parameters (data : DataFrame) : list string :=
  filter (fun col => negb (String.eqb col "Potability")) (columns data).

(** ["Potability" in data.columns] *)
Definition has_potability (data : DataFrame) : bool :=
  existsb (fun col => String.eqb col "Potability") (columns data).

(** [pot_counts.index.map({0: "Not Potable", 1: "Potable"})]: a category that
    is not a key of the dict has no label. *)
Definition pie_label (v : pd.value) : option string :=
  match v with
  | pd.VNum q =>
      if Qeq_bool q 0 then Some "Not Potable"
      else if Qeq_bool q 1 then Some "Potable"
      else None
  | pd.VStr _ => None
  end.

Definition home_page (w : world) : St unit :=
  st.title "💧 Water Quality Dashboard" ;;
  st.subheader "Exploratory Analysis of Water Quality Parameters" ;;
  st.markdown "
    This dashboard analyzes water quality data including parameters such as:
    - pH, Hardness, Solids, Chloramines, Sulfate, Conductivity, Organic Carbon, trihalomethanes, Turbidity, Potability
    " ;;
  st.image w "assets/cover.jpg" "Water Quality Overview".

Definition overview_page (data : option DataFrame) : St unit :=
  st.title "📁 Dataset Overview" ;;
  match data with
  | Some data =>
      st.write "### Sample Records" ;;
      st.dataframe (TFrame (head 50 data)) ;;
      st.write "### Dataset Shape" ;;
      st.write ("Rows: " ++ nat_str (nrows data)) ;;
      st.write ("Columns: " ++ nat_str (ncols data)) ;;
      st.write "### Column Names" ;;
      st.write_list (columns data) ;;
      st.write "### Missing Values" ;;
      st.dataframe (TIsnullSum (isnull_sum data)) ;;
      st.write "### Basic Statistics" ;;
      st.dataframe (TDescribe data)
  | None =>
      st.warning "Dataset not found. Please add your CSV in the data folder."
  end.

Definition trends_page (ui : UI) (data : option DataFrame) : St unit :=
  st.title "📈 Parameter Trends Over Samples" ;;
  match data with
  | Some data =>
      let parameters := parameters data in
      selected_param <- st.selectbox ui "Select Parameter" parameters ;;
      ys <- lift (pd.getitem data selected_param) ;;
      lift (ax.plot ys) ;;
      st.pyplot (LinePlot ys "Sample Index" (opt_str selected_param)
                          (opt_str selected_param ++ " Trend Over Samples"))
  | None =>
      st.warning "No data available for trends."
  end.

Definition distribution_page (ui : UI) (data : option DataFrame) : St unit :=
  st.title "📊 Parameter Distribution" ;;
  match data with
  | Some data =>
      let parameters := parameters data in
      selected_param <- st.selectbox ui "Select Parameter for Distribution" parameters ;;
      xs <- lift (pd.getitem data selected_param) ;;
      lift (ax.hist xs) ;;
      st.pyplot (Histogram xs 20 (opt_str selected_param) "Frequency"
                           (opt_str selected_param ++ " Distribution"))
  | None =>
      st.warning "No data available for distribution."
  end.

Definition potability_page (data : option DataFrame) : St unit :=
  st.title "💧 Water Potability Summary" ;;
  match data with
  | Some data =>
      if has_potability data then
        col <- lift (pd.getitem data (Some "Potability")) ;;
        let pot_counts := pd.value_counts col in
        st.write "### Potability Counts" ;;
        st.dataframe (TCounts pot_counts) ;;
        lift (ax.pie pot_counts) ;;
        st.pyplot (PieChart pot_counts (map (fun vn => pie_label (fst vn)) pot_counts)
                            "Water Potability Distribution")
      else
        st.warning "No 'Potability' column found in dataset."
  | None =>
      st.warning "No data available for Potability analysis."
  end.

Definition about_page : St unit :=
  st.title "📚 About This Dashboard" ;;
  st.markdown "
    **Water Quality Dashboard**  
    This dashboard provides exploratory analysis of water quality parameters using Python, Pandas, Matplotlib, and Streamlit.  

    **Parameters included:**
    - pH, Hardness, Solids, Chloramines, Sulfate
    - Conductivity, Organic Carbon, Trihalomethanes, Turbidity, Potability

    **Author:** Qiniso Ntshingila
 
    **Purpose:** Explore parameter trends, distributions, and potability of water samples.
    ".

(** The [if page == ... elif ...] chain of the script. *)
Definition render (w : world) (ui : UI) (page : option string)
           (data : option DataFrame) : St unit :=
  if py_eq page "Home" then home_page w
  else if py_eq page "Dataset Overview" then overview_page data
  else if py_eq page "Parameter Trends" then trends_page ui data
  else if py_eq page "Distribution" then distribution_page ui data
  else if py_eq page "Potability" then potability_page data
  else if py_eq page "About" then about_page
  else ret tt.

Definition page_options : list string :=
  ["Home"; "Dataset Overview"; "Parameter Trends"; "Distribution"; "Potability"; "About"].

(** The whole script, run once per interaction. *)
Definition app_script (w : world) (ui : UI) : St unit :=
  st.set_page_config "Water Quality Dashboard" "💧" "wide" ;;
  data <- load_data w default_csv_path ;;
  st.sidebar.title "📌 Navigation" ;;
  page <- st.sidebar.radio ui "Go to" page_options ;;
  render w ui page data ;;
  st.markdown "---" ;;
  st.markdown "© 2026 | Water Quality Dashboard".

(** The navigation choices. *)
Inductive PageSelection : Type :=
| Home | DatasetOverview | ParameterTrends | Distribution | Potability | About.

Definition page_name (p : PageSelection) : string :=
  match p with
  | Home => "Home"
  | DatasetOverview => "Dataset Overview"
  | ParameterTrends => "Parameter Trends"
  | Distribution => "Distribution"
  | Potability => "Potability"
  | About => "About"
  end.

(** ** Worked examples *)

Module Examples.

Definition ph_frame : DataFrame :=
  [("pH", NumCol [Some 7%Q; None; Some 9%Q]);
   ("Potability", NumCol [Some 1%Q; Some 0%Q; Some 1%Q])].

Definition one_file (df : DataFrame) : world :=
  {| csv_files := fun path =>
       if String.eqb path default_csv_path then Ret df
       else Raise (FileNotFoundError
                     ("[Errno 2] No such file or directory: '" ++ path ++ "'"));
     image_files := fun _ => true |}.

(** The label column with an empty field. *)
Definition label_gap_frame : DataFrame :=
  [("pH", NumCol [Some 7%Q; Some 8%Q; Some 9%Q]);
   ("Potability", NumCol [Some 0%Q; Some 1%Q; None])].

(** A measurement column whose fields are all empty. *)
Definition empty_column_frame : DataFrame :=
  [("Sulfate", NumCol [None; None]);
   ("Potability", NumCol [Some 1%Q; Some 0%Q])].

(** A file that has the label column only. *)
Definition label_only_frame : DataFrame :=
  [("Potability", NumCol [Some 1%Q; Some 0%Q])].

(** A file with a text column next to the measurements. *)
Definition site_frame : DataFrame :=
  [("Site", ObjCol [Some "north"; None; Some "south"]);
   ("pH", NumCol [Some 7%Q; None; Some 9%Q]);
   ("Potability", NumCol [Some 1%Q; Some 0%Q; Some 1%Q])].

(** What [load_data] returns for [site_frame]: the text column keeps its
    gap. *)
Definition site_loaded : DataFrame :=
  [("Site", ObjCol [Some "north"; None; Some "south"]);
   ("pH", NumCol [Some 7%Q; Some 8%Q; Some 9%Q]);
   ("Potability", NumCol [Some 1%Q; Some 0%Q; Some 1%Q])].

(** A label written as text, with a gap: load leaves it as it is. *)
Definition text_label_frame : DataFrame :=
  [("pH", NumCol [Some 7%Q; Some 8%Q; Some 9%Q]);
   ("Potability", ObjCol [Some "yes"; None; Some "no"])].

(** A directory without the CSV. *)
Definition no_file : world :=
  {| csv_files := fun path =>
       Raise (FileNotFoundError
                ("[Errno 2] No such file or directory: '" ++ path ++ "'"));
     image_files := fun _ => true |}.

(** A CSV that pandas cannot tokenize. *)
Definition broken_file : world :=
  {| csv_files := fun _ =>
       Raise (OtherException
                "Error tokenizing data. C error: Expected 2 fields in line 3, saw 5");
     image_files := fun _ => true |}.

(** The user opens the page of index [page] and picks the parameter of
    index [param] there. *)
Definition picks (page param : nat) : UI :=
  {| radio_index := page; selectbox_index := param |}.

(** What [load_data] returns for [label_gap_frame]. *)
Definition label_gap_loaded : DataFrame :=
  [("pH", NumCol [Some 7%Q; Some 8%Q; Some 9%Q]);
   ("Potability", NumCol [Some 0%Q; Some 1%Q; Some (1 # 2)%Q])].

End Examples.

(** ** Notions the properties are stated with *)

(** The median by the usual definition, of values [s] already in ascending
    order: the middle one when their number is odd, the mean of the two
    middle ones when it is even.  Values are compared as numbers. *)
Definition standard_median (s : list Q) (m : Q) : Prop :=
  if Nat.odd (length s)
  then exists a, nth_error s (length s / 2) = Some a /\ (m == a)%Q
  else exists a b,
      nth_error s (length s / 2 - 1) = Some a /\
      nth_error s (length s / 2) = Some b /\
      (m == (a + b) / 2)%Q.

(** [c'] has the dtype and the length of [c], and every cell present in [c]
    stands unchanged at its row in [c']. *)
Definition keeps_present (c c' : column) : Prop :=
  match c, c' with
  | NumCol a, NumCol b =>
      length b = length a /\
      forall i v, nth_error a i = Some (Some v) -> nth_error b i = Some (Some v)
  | ObjCol a, ObjCol b => b = a
  | _, _ => False
  end.

(** [msg] contains [part]. *)
Definition contains (msg part : string) : Prop :=
  exists pre post : string, msg = (pre ++ part ++ post)%string.

(** [q] is a finite float64 number: an integer of less than 53 bits times a
    power of two within the exponent range. *)
Definition binary64 (q : Q) : Prop :=
  exists m e : Z,
    (Z.abs m < 2 ^ 53)%Z /\ (-1074 <= e <= 971)%Z /\ (q == inject_Z m * 2 ^ e)%Q.



(** A numeric column that matplotlib draws as it is: it has rows, no cell is
    missing, and every value is a finite float64 number of magnitude at most
    2^1000, so that the range of the values is far from overflow. *)
Definition finite_complete (c : column) : Prop :=
  match c with
  | NumCol cells =>
      cells <> [] /\ has_missing c = false /\
      Forall binary64 (dropna cells) /\
      Forall (fun q => (- 2 ^ 1000 <= q /\ q <= 2 ^ 1000)%Q) (dropna cells)
  | ObjCol _ => False
  end.


Definition total_count (counts : list (pd.value * nat)) : nat :=
  fold_right (fun vn acc => snd vn + acc) 0 counts.

(** The number of page titles in an output. *)
Definition is_title (e : event) : bool :=
  match e with
  | Title _ => true
  | _ => false
  end.

Definition count_titles (log : list event) : nat := length (filter is_title log).

(** The two lines that close the script. *)
Definition footer : list event :=
  [Markdown "---"; Markdown "© 2026 | Water Quality Dashboard"].

(** What the script puts out before the page: the configuration, what the
    load reported, and the navigation. *)
Definition preamble (load_log : list event) : list event :=
  PageConfig "Water Quality Dashboard" "💧" "wide"
  :: load_log ++ [SidebarTitle "📌 Navigation"; SidebarRadio "Go to" page_options].

(** No two categories of a table of counts are equal. *)
Definition distinct_categories (counts : list (pd.value * nat)) : Prop :=
  ForallOrdPairs (fun a b => pd.value_eqb (fst a) (fst b) = false) counts.


(** ** What [load_data] computes, in closed form

    [impute] states the effect of the four pandas calls of [load_data] column
    by column; [load_data_parsed] below proves that the script computes it. *)

Definition impute_col (c : column) : column :=
  match c with
  | NumCol cells =>
      match pd.median_values (dropna cells) with
      | Some m => NumCol (fill_cells m cells)
      | None => c
      end
  | ObjCol _ => c
  end.

Definition impute (df : DataFrame) : DataFrame :=
  map (fun kc => (fst kc, impute_col (snd kc))) df.

Definition col_median (c : column) : option Q :=
  match c with
  | NumCol cells => pd.median_values (dropna cells)
  | ObjCol _ => None
  end.

Definition override (value : DataFrame) (keys : list string)
           (kc : string * column) : string * column :=
  if existsb (String.eqb (fst kc)) keys
  then match lookup value (fst kc) with
       | Some c => (fst kc, c)
       | None => kc
       end
  else kc.

(** * Proofs *)

(** ** Association lists *)

Section Lookup.
Context {V : Type}.
Implicit Types (l : list (string * V)) (k : string) (v : V).

Lemma lookup_Some_In l k v : lookup l k = Some v -> In (k, v) l.
Proof.
  induction l as [|[k' v'] l IH]; simpl; [discriminate|].
  destruct (String.eqb k' k) eqn:E.
  - apply String.eqb_eq in E. intros [= ->]. left. now subst.
  - intros H. right. now apply IH.
Qed.

Lemma In_lookup l k v : NoDup (map fst l) -> In (k, v) l -> lookup l k = Some v.
Proof.
  induction l as [|[k' v'] l IH]; simpl; [intros _ []|].
  intros Hnd [Heq|Hin].
  - injection Heq as -> ->. now rewrite String.eqb_refl.
  - inversion Hnd as [|? ? Hnotin Hnd']; subst.
    destruct (String.eqb k' k) eqn:E.
    + apply String.eqb_eq in E. subst k'. exfalso. apply Hnotin.
      change k with (fst (k, v)). now apply in_map.
    + now apply IH.
Qed.

Lemma lookup_map_snd {W : Type} (f : V -> W) l k :
  lookup (map (fun kv => (fst kv, f (snd kv))) l) k = option_map f (lookup l k).
Proof.
  induction l as [|[k' v'] l IH]; simpl; [reflexivity|].
  now destruct (String.eqb k' k).
Qed.

Lemma In_keys_lookup l k : In k (map fst l) -> exists v, lookup l k = Some v.
Proof.
  induction l as [|[k' v'] l IH]; simpl; [intros []|].
  intros [->|Hin].
  - rewrite String.eqb_refl. now exists v'.
  - destruct (String.eqb k' k); [now exists v'|now apply IH].
Qed.
End Lookup.

Lemma existsb_eqb_In (k : string) (ks : list string) :
  existsb (String.eqb k) ks = true <-> In k ks.
Proof.
  rewrite existsb_exists. split.
  - intros (x & Hin & E). apply String.eqb_eq in E. now subst.
  - intros Hin. exists k. split; [assumption|apply String.eqb_refl].
Qed.

Lemma columns_map_snd (f : column -> column) (df : DataFrame) :
  columns (map (fun kc => (fst kc, f (snd kc))) df) = columns df.
Proof.
  unfold columns. rewrite map_map. reflexivity.
Qed.

Lemma columns_impute (df : DataFrame) : columns (impute df) = columns df.
Proof. apply columns_map_snd. Qed.

Lemma lookup_impute (df : DataFrame) (k : string) :
  lookup (impute df) k = option_map impute_col (lookup df k).
Proof. apply lookup_map_snd. Qed.

(** ** The four pandas steps of [load_data] *)

Lemma select_In (df : DataFrame) (kc : string * column) :
  In kc (pd.select_dtypes_number df) <-> In kc df /\ pd.is_number (snd kc) = true.
Proof. unfold pd.select_dtypes_number. apply filter_In. Qed.

Lemma NoDup_columns_select (df : DataFrame) :
  NoDup (columns df) -> NoDup (columns (pd.select_dtypes_number df)).
Proof.
  unfold columns, pd.select_dtypes_number.
  induction df as [|[k c] df IH]; simpl; [constructor|].
  intros Hnd. inversion Hnd as [|? ? Hnotin Hnd']; subst.
  destruct (pd.is_number c); simpl; [|now apply IH].
  constructor; [|now apply IH].
  intros Hin. apply Hnotin. apply in_map_iff in Hin as (kc & <- & Hin).
  apply filter_In in Hin as [Hin _]. now apply in_map.
Qed.

Lemma getitem_list_sub (df sub : DataFrame) :
  (forall k c, In (k, c) sub -> lookup df k = Some c) ->
  pd.getitem_list df (columns sub) = Ret sub.
Proof.
  induction sub as [|[k c] sub IH]; simpl; [reflexivity|].
  intros H. rewrite (H k c) by now left.
  rewrite IH; [reflexivity|]. intros k' c' Hin. apply H. now right.
Qed.

Lemma getitem_list_select (df : DataFrame) :
  NoDup (columns df) ->
  pd.getitem_list df (columns (pd.select_dtypes_number df))
  = Ret (pd.select_dtypes_number df).
Proof.
  intros Hnd. apply getitem_list_sub. intros k c Hin.
  apply select_In in Hin as [Hin _]. now apply In_lookup.
Qed.

Lemma median_numeric (sub : DataFrame) :
  Forall (fun kc => pd.is_number (snd kc) = true) sub ->
  pd.median sub = Ret (map (fun kc => (fst kc, col_median (snd kc))) sub).
Proof.
  induction 1 as [|[k c] sub Hc _ IH]; simpl; [reflexivity|].
  destruct c as [cells|cells]; simpl in Hc; [|discriminate].
  now rewrite IH.
Qed.

Lemma fillna_median (sub : DataFrame) :
  NoDup (columns sub) ->
  pd.fillna sub (map (fun kc => (fst kc, col_median (snd kc))) sub) = impute sub.
Proof.
  intros Hnd. unfold pd.fillna, impute. apply map_ext_in.
  intros [k c] Hin. simpl. rewrite lookup_map_snd.
  rewrite (In_lookup _ _ _ Hnd Hin). simpl.
  destruct c as [cells|cells]; simpl; [|reflexivity].
  now destruct (pd.median_values (dropna cells)).
Qed.

Lemma setitem_present (df : DataFrame) (k : string) (c : column) :
  NoDup (columns df) -> In k (columns df) ->
  pd.setitem df k c
  = map (fun kc => if String.eqb (fst kc) k then (k, c) else kc) df.
Proof.
  induction df as [|[k' c'] df IH]; simpl; [intros _ []|].
  intros Hnd Hin. inversion Hnd as [|? ? Hnotin Hnd']; subst.
  destruct (String.eqb k' k) eqn:E.
  - apply String.eqb_eq in E. subst k'. f_equal.
    symmetry. erewrite map_ext_in; [apply map_id|].
    intros [k2 c2] Hin2. simpl.
    destruct (String.eqb k2 k) eqn:E2; [|reflexivity].
    apply String.eqb_eq in E2. subst k2. exfalso. apply Hnotin.
    change k with (fst (k, c2)). now apply in_map.
  - f_equal. apply IH; [assumption|].
    destruct Hin as [->|Hin]; [|assumption].
    now rewrite String.eqb_refl in E.
Qed.

Lemma setitem_pairs_override (value : DataFrame) (ks : list string) :
  forall df : DataFrame,
    NoDup (columns df) ->
    (forall k, In k ks -> In k (columns df)) ->
    (forall k, In k ks -> In k (columns value)) ->
    pd.setitem_pairs df (combine ks ks) value = Ret (map (override value ks) df).
Proof.
  induction ks as [|k ks IH]; intros df Hnd Hdf Hval; simpl.
  - f_equal. symmetry. apply map_id.
  - destruct (In_keys_lookup value k (Hval k (or_introl eq_refl))) as [c Hc].
    rewrite Hc. rewrite setitem_present by (auto; apply Hdf; now left).
    assert (Hcols : columns (map (fun kc : string * column =>
                                    if String.eqb (fst kc) k then (k, c) else kc) df)
                    = columns df).
    { unfold columns. rewrite map_map. apply map_ext. intros [k' c']. simpl.
      destruct (String.eqb k' k) eqn:E; [|reflexivity].
      apply String.eqb_eq in E. now subst. }
    rewrite IH.
    + f_equal. rewrite map_map. apply map_ext. intros [k' c'].
      unfold override. simpl.
      destruct (String.eqb k' k) eqn:E; simpl.
      * apply String.eqb_eq in E. subst k'. rewrite Hc.
        destruct (existsb (String.eqb k) ks); reflexivity.
      * reflexivity.
    + now rewrite Hcols.
    + intros k' Hin. rewrite Hcols. apply Hdf. now right.
    + intros k' Hin. apply Hval. now right.
Qed.

Lemma override_impute (df : DataFrame) :
  NoDup (columns df) ->
  map (override (impute (pd.select_dtypes_number df))
                (columns (pd.select_dtypes_number df))) df
  = impute df.
Proof.
  intros Hnd. unfold impute at 2. apply map_ext_in. intros [k c] Hin.
  unfold override. simpl.
  destruct (existsb (String.eqb k) (columns (pd.select_dtypes_number df))) eqn:E.
  - apply existsb_eqb_In in E. unfold columns in E.
    apply in_map_iff in E as ([k' c'] & Hk & Hin'). simpl in Hk. subst k'.
    rewrite lookup_impute.
    rewrite (In_lookup _ _ _ (NoDup_columns_select df Hnd) Hin'). simpl.
    apply select_In in Hin' as [Hin' _].
    pose proof (In_lookup _ _ _ Hnd Hin) as H1.
    pose proof (In_lookup _ _ _ Hnd Hin') as H2.
    congruence.
  - destruct c as [cells|cells]; [|reflexivity].
    exfalso. apply not_true_iff_false in E. apply E. apply existsb_eqb_In.
    change k with (fst (k, NumCol cells)). apply in_map.
    apply select_In. now split.
Qed.

Lemma setitem_list_impute (df : DataFrame) :
  NoDup (columns df) ->
  pd.setitem_list df (columns (pd.select_dtypes_number df))
                  (impute (pd.select_dtypes_number df))
  = Ret (impute df).
Proof.
  intros Hnd. unfold pd.setitem_list.
  rewrite columns_impute, Nat.eqb_refl.
  rewrite setitem_pairs_override; auto.
  - now rewrite override_impute.
  - intros k Hin. unfold columns in *.
    apply in_map_iff in Hin as (kc & <- & Hin).
    apply select_In in Hin as [Hin _]. now apply in_map.
  - intros k Hin. now rewrite columns_impute.
Qed.

(** The success path of [load_data]: a file that parses is returned with each
    column imputed, and nothing is reported. *)
Lemma load_data_parsed (w : world) (path : string) (df : DataFrame) :
  pd.read_csv w path = Ret df ->
  NoDup (columns df) ->
  load_data w path = (Ret (Some (impute df)), []).
Proof.
  intros Hread Hnd. unfold load_data. rewrite Hread. simpl.
  rewrite getitem_list_select by assumption. simpl.
  rewrite median_numeric.
  - simpl. rewrite fillna_median by now apply NoDup_columns_select.
    rewrite setitem_list_impute by assumption. reflexivity.
  - apply Forall_forall. intros kc Hin. now apply select_In in Hin.
Qed.

(** The failure paths of [load_data]. *)
Lemma load_data_raised (w : world) (path : string) (e : exn) :
  pd.read_csv w path = Raise e ->
  load_data w path
  = (Ret None,
     [Error (match e with
             | FileNotFoundError _ => "File not found: " ++ path
             | _ => "Error loading data: " ++ exn_str e
             end)]).
Proof.
  intros Hread. unfold load_data. rewrite Hread. simpl.
  destruct e; reflexivity.
Qed.

(** ** Sorting and the median *)

Lemma insert_sorted_perm (x : Q) (s : list Q) :
  Permutation (pd.insert_sorted x s) (x :: s).
Proof.
  induction s as [|y s IH]; simpl; [apply Permutation_refl|].
  destruct (Qle_bool x y); [apply Permutation_refl|].
  eapply perm_trans; [apply perm_skip, IH|apply perm_swap].
Qed.

Lemma sort_perm (xs : list Q) : Permutation (pd.sort xs) xs.
Proof.
  induction xs as [|x xs IH]; simpl; [constructor|].
  eapply perm_trans; [apply insert_sorted_perm|now apply perm_skip].
Qed.

Lemma length_sort (xs : list Q) : length (pd.sort xs) = length xs.
Proof. apply Permutation_length, sort_perm. Qed.

Lemma insert_sorted_Sorted (x : Q) (s : list Q) :
  Sorted Qle s -> Sorted Qle (pd.insert_sorted x s).
Proof.
  induction s as [|y s IH]; simpl; intros Hs.
  - repeat constructor.
  - destruct (Qle_bool x y) eqn:E.
    + constructor; [assumption|]. constructor. now apply Qle_bool_iff.
    + assert (Hyx : (y <= x)%Q).
      { apply Qlt_le_weak, Qnot_le_lt. intros H.
        apply Qle_bool_iff in H. congruence. }
      apply Sorted_inv in Hs as [Hs Hhd]. constructor; [now apply IH|].
      destruct s as [|z s]; simpl.
      * now constructor.
      * destruct (Qle_bool x z); constructor; [assumption|].
        now inversion Hhd.
Qed.

Lemma sort_Sorted (xs : list Q) : Sorted Qle (pd.sort xs).
Proof.
  induction xs as [|x xs IH]; simpl; [constructor|].
  now apply insert_sorted_Sorted.
Qed.

(** Two sorted arrangements of the same elements coincide, when the order is
    antisymmetric on them. *)
Lemma sorted_perm_eq {A : Type} (R : A -> A -> Prop) (s1 : list A) :
  forall s2 : list A,
    (forall x y, In x s1 -> In y s1 -> R x y -> R y x -> x = y) ->
    StronglySorted R s1 -> StronglySorted R s2 -> Permutation s1 s2 -> s1 = s2.
Proof.
  induction s1 as [|a t IH]; intros s2 Hanti H1 H2 Hp.
  - symmetry. now apply Permutation_nil.
  - destruct s2 as [|b u].
    + apply Permutation_sym, Permutation_nil in Hp. discriminate.
    + apply StronglySorted_inv in H1 as [H1 Ha].
      apply StronglySorted_inv in H2 as [H2 Hb].
      assert (Hab : a = b).
      { assert (Hin_a : In a (b :: u))
          by (eapply Permutation_in; [exact Hp|now left]).
        assert (Hin_b : In b (a :: t))
          by (eapply Permutation_in; [apply Permutation_sym; exact Hp|now left]).
        destruct Hin_a as [->|Hau]; [reflexivity|].
        destruct Hin_b as [->|Hbt]; [reflexivity|].
        apply Hanti; [now left|now right| |].
        - rewrite Forall_forall in Ha. now apply Ha.
        - rewrite Forall_forall in Hb. now apply Hb. }
      subst b. f_equal. apply IH; try assumption.
      * intros x y Hx Hy. apply Hanti; now right.
      * now apply Permutation_cons_inv in Hp.
Qed.

Lemma StronglySorted_map_Qred (s : list Q) :
  StronglySorted Qle s -> StronglySorted Qle (map Qred s).
Proof.
  induction 1 as [|a s Hs IH Ha]; simpl; constructor; [assumption|].
  rewrite Forall_forall in *. intros y Hy.
  apply in_map_iff in Hy as (y' & <- & Hy'). apply Qred_le. now apply Ha.
Qed.

Lemma Qle_StronglySorted (s : list Q) : Sorted Qle s -> StronglySorted Qle s.
Proof.
  apply Sorted_StronglySorted. intros x y z. apply Qle_trans.
Qed.

Lemma map_Qred_eq_Forall2 (s1 : list Q) :
  forall s2, map Qred s1 = map Qred s2 -> Forall2 Qeq s1 s2.
Proof.
  induction s1 as [|a s1 IH]; intros [|b s2]; simpl; try discriminate.
  - constructor.
  - intros [= Hab Hrest]. constructor; [now apply Qred_eq_iff|now apply IH].
Qed.

(** Up to equality of numbers, a list has one ascending arrangement. *)
Lemma sorted_perm_Qeq (s1 s2 : list Q) :
  Sorted Qle s1 -> Sorted Qle s2 -> Permutation s1 s2 -> Forall2 Qeq s1 s2.
Proof.
  intros H1 H2 Hp. apply map_Qred_eq_Forall2.
  apply (sorted_perm_eq Qle).
  - intros x y Hx Hy Hxy Hyx.
    apply in_map_iff in Hx as (x' & <- & _).
    apply in_map_iff in Hy as (y' & <- & _).
    rewrite <- (Qred_complete _ _ (Qred_correct x')).
    rewrite <- (Qred_complete _ _ (Qred_correct y')).
    apply Qred_complete. now apply Qle_antisym.
  - now apply StronglySorted_map_Qred, Qle_StronglySorted.
  - now apply StronglySorted_map_Qred, Qle_StronglySorted.
  - now apply Permutation_map.
Qed.

Lemma Forall2_nth_error_l {A B : Type} (R : A -> B -> Prop) (l1 : list A) :
  forall (l2 : list B) (i : nat) (a : A),
    Forall2 R l1 l2 -> nth_error l1 i = Some a ->
    exists b, nth_error l2 i = Some b /\ R a b.
Proof.
  induction l1 as [|x l1 IH]; intros l2 i a H12 Hi.
  - now destruct i.
  - inversion H12 as [|? y ? l2' Hxy Hrest]; subst.
    destruct i as [|i]; simpl in *.
    + injection Hi as ->. now exists y.
    + now apply IH.
Qed.

Lemma half_lt (n : nat) : n <> 0 -> n / 2 < n.
Proof. intros H. apply Nat.div_lt; lia. Qed.

(** The median is defined as soon as there is a value. *)
Lemma median_values_Some (xs : list Q) :
  xs <> [] -> exists m, pd.median_values xs = Some m.
Proof.
  intros Hne. unfold pd.median_values. rewrite length_sort.
  assert (Hlen : length xs <> 0) by (destruct xs; simpl; congruence).
  apply Nat.eqb_neq in Hlen as E. rewrite E.
  pose proof (half_lt _ Hlen) as Hhalf.
  pose proof (length_sort xs) as Hsort.
  destruct (nth_error (pd.sort xs) (length xs / 2)) as [b|] eqn:Eb;
    [|apply nth_error_None in Eb; lia].
  destruct (Nat.odd (length xs)); [now exists b|].
  destruct (nth_error (pd.sort xs) (length xs / 2 - 1)) as [a|] eqn:Ea;
    [|apply nth_error_None in Ea; lia].
  eexists. reflexivity.
Qed.

(** The value [pd.median_values] returns is the median by the usual
    definition, whichever ascending arrangement of the values is taken. *)
Lemma median_values_standard (xs s : list Q) (m : Q) :
  pd.median_values xs = Some m ->
  Permutation s xs -> Sorted Qle s -> standard_median s m.
Proof.
  intros Hm Hp Hs.
  assert (H2 : Forall2 Qeq (pd.sort xs) s).
  { apply sorted_perm_Qeq; [apply sort_Sorted|assumption|].
    eapply perm_trans; [apply sort_perm|now apply Permutation_sym]. }
  assert (Hlen : length (pd.sort xs) = length s)
    by (rewrite length_sort; symmetry; now apply Permutation_length).
  unfold pd.median_values in Hm. unfold standard_median.
  rewrite Hlen in Hm.
  destruct (Nat.eqb (length s) 0); [discriminate|].
  destruct (Nat.odd (length s)).
  - destruct (Forall2_nth_error_l _ _ _ _ _ H2 Hm) as (b & Hb & Hmb).
    now exists b.
  - destruct (nth_error (pd.sort xs) (length s / 2 - 1)) as [a|] eqn:Ea;
      [|discriminate].
    destruct (nth_error (pd.sort xs) (length s / 2)) as [b|] eqn:Eb;
      [|discriminate].
    assert (Hmab : m = Qred ((a + b) / 2)%Q) by congruence.
    subst m. clear Hm.
    destruct (Forall2_nth_error_l _ _ _ _ _ H2 Ea) as (a' & Ha' & Haa).
    destruct (Forall2_nth_error_l _ _ _ _ _ H2 Eb) as (b' & Hb' & Hbb).
    exists a', b'. split; [assumption|]. split; [assumption|].
    apply (Qeq_trans _ ((a + b) / 2)%Q); [apply Qred_correct|].
    apply Qdiv_comp; [|apply Qeq_refl]. now apply Qplus_comp.
Qed.

(** ** Filling one column *)

Section Cells.
Context {A : Type}.
Implicit Types (cells : list (option A)) (m : A).

Lemma fill_cells_complete m cells :
  existsb is_nan cells = false -> fill_cells m cells = cells.
Proof.
  induction cells as [|[v|] cells IH]; simpl; try discriminate.
  - reflexivity.
  - intros H. f_equal. now apply IH.
Qed.

Lemma fill_cells_filled m cells : existsb is_nan (fill_cells m cells) = false.
Proof. induction cells as [|[v|] cells IH]; simpl; auto. Qed.

Lemma length_fill_cells m cells : length (fill_cells m cells) = length cells.
Proof. apply length_map. Qed.

Lemma nth_error_fill_present m cells i v :
  nth_error cells i = Some (Some v) ->
  nth_error (fill_cells m cells) i = Some (Some v).
Proof.
  intros H. unfold fill_cells. rewrite nth_error_map, H. reflexivity.
Qed.

Lemma dropna_fill_cells_length m cells :
  length (dropna (fill_cells m cells)) = length cells.
Proof.
  induction cells as [|[v|] cells IH]; simpl; auto.
Qed.

Lemma dropna_nil_all_missing cells :
  dropna cells = [] <-> Forall (fun x => x = None) cells.
Proof.
  induction cells as [|[v|] cells IH]; simpl.
  - split; constructor.
  - split; [discriminate|]. intros H. inversion H. discriminate.
  - rewrite IH. split; [now constructor|]. intros H. now inversion H.
Qed.

Lemma In_dropna_fill m cells v :
  In v (dropna (fill_cells m cells)) ->
  In v (dropna cells) \/ (existsb is_nan cells = true /\ v = m).
Proof.
  induction cells as [|[x|] cells IH]; simpl.
  - intros [].
  - intros [->|H]; [left; now left|].
    destruct (IH H) as [H'|H']; [left; now right|now right].
  - intros [<-|H]; [now right|].
    destruct (IH H) as [H'|[_ H']]; [now left|now right].
Qed.
End Cells.

Lemma impute_col_complete (c : column) : has_missing c = false -> impute_col c = c.
Proof.
  destruct c as [cells|cells]; simpl; [|reflexivity].
  intros H. destruct (pd.median_values (dropna cells)); [|reflexivity].
  f_equal. now apply fill_cells_complete.
Qed.

Lemma impute_col_keeps_present (c : column) : keeps_present c (impute_col c).
Proof.
  destruct c as [cells|cells]; simpl; [|reflexivity].
  destruct (pd.median_values (dropna cells)) as [m|]; simpl.
  - split; [apply length_fill_cells|]. intros i v. apply nth_error_fill_present.
  - now split.
Qed.

Lemma col_length_impute_col (c : column) : col_length (impute_col c) = col_length c.
Proof.
  destruct c as [cells|cells]; simpl; [|reflexivity].
  destruct (pd.median_values (dropna cells)); simpl; [apply length_fill_cells|reflexivity].
Qed.

Lemma nrows_impute (df : DataFrame) : nrows (impute df) = nrows df.
Proof.
  destruct df as [|[k c] df]; simpl; [reflexivity|apply col_length_impute_col].
Qed.

(** ** Properties of [load_data] *)

Ltac distinct_names :=
  unfold columns; simpl;
  repeat (apply NoDup_cons; [simpl; intuition discriminate|]);
  apply NoDup_nil.

(** C9: load changes nothing it does not impute.  When the file parses, load
    succeeds, the column names of the Dataset are those of the file in the
    same order, every column of the file that has no missing value is
    returned value for value, and in every other column each value that is
    present stays at its row. *)
Theorem C9_load_keeps_complete_columns (w : world) (path : string) (df : DataFrame) :
  pd.read_csv w path = Ret df ->
  NoDup (columns df) ->
  exists data,
    load_data w path = (Ret (Some data), []) /\
    columns data = columns df /\
    (forall k c, lookup df k = Some c -> has_missing c = false ->
                 lookup data k = Some c) /\
    (forall k c, lookup df k = Some c ->
                 exists c', lookup data k = Some c' /\ keeps_present c c').
Proof.
  intros Hread Hnd. exists (impute df).
  split; [now apply load_data_parsed|].
  split; [apply columns_impute|]. split.
  - intros k c Hk Hc. rewrite lookup_impute, Hk. simpl.
    now rewrite impute_col_complete.
  - intros k c Hk. exists (impute_col c). split.
    + now rewrite lookup_impute, Hk.
    + apply impute_col_keeps_present.
Qed.

Lemma C9_witness :
  exists data,
    load_data (Examples.one_file Examples.site_frame) default_csv_path
    = (Ret (Some data), []) /\
    columns data = columns Examples.site_frame /\
    (forall k c, lookup Examples.site_frame k = Some c -> has_missing c = false ->
                 lookup data k = Some c) /\
    (forall k c, lookup Examples.site_frame k = Some c ->
                 exists c', lookup data k = Some c' /\ keeps_present c c').
Proof.
  apply (C9_load_keeps_complete_columns
           (Examples.one_file Examples.site_frame) default_csv_path
           Examples.site_frame).
  - reflexivity.
  - distinct_names.
Defined.

(** C1, as stated, fails: a numeric label column is imputed like any other
    numeric column.  With the label column [0, 1, missing] the load returns
    [0, 1, 1/2]. *)
Lemma C1_counterexample :
  load_data (Examples.one_file Examples.label_gap_frame) default_csv_path
  = (Ret (Some [("pH", NumCol [Some 7%Q; Some 8%Q; Some 9%Q]);
                ("Potability", NumCol [Some 0%Q; Some 1%Q; Some (1 # 2)%Q])]),
     []) /\
  lookup Examples.label_gap_frame "Potability"
  = Some (NumCol [Some 0%Q; Some 1%Q; None]) /\
  NumCol [Some 0%Q; Some 1%Q; Some (1 # 2)%Q] <> NumCol [Some 0%Q; Some 1%Q; None].
Proof.
  split; [reflexivity|]. split; [reflexivity|]. discriminate.
Qed.

(** C1, amended: the Potability column of the Dataset is the column of the
    file, missing cells included, when that column has no missing cell, is
    not numeric, or has no value at all; when it is numeric, holds the values
    0 and 1 only and at least one of them, its missing cells hold the median
    of its values; in every case the cells that were present are
    unchanged. *)
Theorem C1_label_column (w : world) (path : string) (df : DataFrame) (c : column) :
  pd.read_csv w path = Ret df ->
  NoDup (columns df) ->
  lookup df "Potability" = Some c ->
  exists data c',
    load_data w path = (Ret (Some data), []) /\
    lookup data "Potability" = Some c' /\
    (has_missing c = false \/ pd.is_number c = false \/ pd.values c = [] -> c' = c) /\
    (forall cells, c = NumCol cells -> dropna cells <> [] ->
       (forall q, In q (dropna cells) -> (q == 0 \/ q == 1)%Q) ->
       exists m, pd.median_values (dropna cells) = Some m /\
                 c' = NumCol (fill_cells m cells)) /\
    keeps_present c c'.
Proof.
  intros Hread Hnd Hc. exists (impute df), (impute_col c).
  split; [now apply load_data_parsed|].
  split; [now rewrite lookup_impute, Hc|]. split; [|split].
  - intros [H|[H|H]].
    + now apply impute_col_complete.
    + destruct c; [discriminate|reflexivity].
    + destruct c as [cells|cells]; [|reflexivity]. simpl in *.
      apply map_eq_nil in H. now rewrite H.
  - intros cells -> Hne _. destruct (median_values_Some _ Hne) as [m Hm].
    exists m. split; [assumption|]. simpl. now rewrite Hm.
  - apply impute_col_keeps_present.
Qed.

Lemma C1_witness :
  exists data c',
    load_data (Examples.one_file Examples.label_gap_frame) default_csv_path
    = (Ret (Some data), []) /\
    lookup data "Potability" = Some c' /\
    (has_missing (NumCol [Some 0%Q; Some 1%Q; None]) = false \/
     pd.is_number (NumCol [Some 0%Q; Some 1%Q; None]) = false \/
     pd.values (NumCol [Some 0%Q; Some 1%Q; None]) = [] ->
     c' = NumCol [Some 0%Q; Some 1%Q; None]) /\
    (forall cells, NumCol [Some 0%Q; Some 1%Q; None] = NumCol cells ->
       dropna cells <> [] ->
       (forall q, In q (dropna cells) -> (q == 0 \/ q == 1)%Q) ->
       exists m, pd.median_values (dropna cells) = Some m /\
                 c' = NumCol (fill_cells m cells)) /\
    keeps_present (NumCol [Some 0%Q; Some 1%Q; None]) c'.
Proof.
  apply (C1_label_column (Examples.one_file Examples.label_gap_frame)
                         default_csv_path Examples.label_gap_frame).
  - reflexivity.
  - distinct_names.
  - reflexivity.
Defined.


Ltac float64_number m e :=
  exists m, e; split; [reflexivity|]; split; [split; discriminate|reflexivity].




(** The end-to-end example of the specification. *)
Example load_ph_example :
  load_data (Examples.one_file Examples.ph_frame) default_csv_path
  = (Ret (Some [("pH", NumCol [Some 7%Q; Some 8%Q; Some 9%Q]);
                ("Potability", NumCol [Some 1%Q; Some 0%Q; Some 1%Q])]),
     []).
Proof. reflexivity. Qed.

(** C10: a numeric column that is entirely missing in the file does not make
    the load fail; the Dataset is returned and that column is still entirely
    missing, so it has missing cells after the load. *)
Theorem C10_all_missing_column (w : world) (path : string) (df : DataFrame)
        (k : string) (cells : list (option Q)) :
  pd.read_csv w path = Ret df ->
  NoDup (columns df) ->
  lookup df k = Some (NumCol cells) ->
  cells <> [] ->
  Forall (fun x => x = None) cells ->
  exists data,
    load_data w path = (Ret (Some data), []) /\
    lookup data k = Some (NumCol cells) /\
    has_missing (NumCol cells) = true.
Proof.
  intros Hread Hnd Hk Hne Hall. exists (impute df).
  split; [now apply load_data_parsed|]. split.
  - rewrite lookup_impute, Hk. simpl.
    apply dropna_nil_all_missing in Hall. now rewrite Hall.
  - destruct cells as [|x cells]; [contradiction|].
    inversion Hall as [|? ? Hx _]; subst. reflexivity.
Qed.

Lemma C10_witness :
  exists data,
    load_data (Examples.one_file Examples.empty_column_frame) default_csv_path
    = (Ret (Some data), []) /\
    lookup data "Sulfate" = Some (NumCol [None; None]) /\
    has_missing (NumCol [None; None]) = true.
Proof.
  apply (C10_all_missing_column (Examples.one_file Examples.empty_column_frame)
                                default_csv_path Examples.empty_column_frame).
  - reflexivity.
  - distinct_names.
  - reflexivity.
  - discriminate.
  - repeat constructor.
Defined.

(** C5: when the path does not exist (the read raises FileNotFoundError),
    load returns no Dataset and reports one error, "File not found: " followed
    by the path, so the message contains the attempted path. *)
Theorem C5_file_not_found (w : world) (path msg : string) :
  pd.read_csv w path = Raise (FileNotFoundError msg) ->
  exists report,
    load_data w path = (Ret None, [Error report]) /\
    report = ("File not found: " ++ path)%string /\
    contains report path.
Proof.
  intros Hread. exists ("File not found: " ++ path)%string.
  split; [now rewrite (load_data_raised _ _ _ Hread)|].
  split; [reflexivity|].
  exists "File not found: ", "". f_equal.
  clear. induction path as [|a path IH]; simpl; [reflexivity|now rewrite <- IH].
Qed.

Lemma C5_witness :
  exists report,
    load_data Examples.no_file "data/missing.csv" = (Ret None, [Error report]) /\
    report = ("File not found: " ++ "data/missing.csv")%string /\
    contains report "data/missing.csv".
Proof.
  apply (C5_file_not_found Examples.no_file "data/missing.csv"
           "[Errno 2] No such file or directory: 'data/missing.csv'").
  reflexivity.
Defined.

(** C6: when the read fails in any other way (a malformed CSV among them),
    load returns no Dataset and reports one error, "Error loading data: "
    followed by the text of the exception. *)
Theorem C6_other_load_failure (w : world) (path : string) (e : exn) :
  pd.read_csv w path = Raise e ->
  (forall msg, e <> FileNotFoundError msg) ->
  exists report,
    load_data w path = (Ret None, [Error report]) /\
    report = ("Error loading data: " ++ exn_str e)%string.
Proof.
  intros Hread Hkind. exists ("Error loading data: " ++ exn_str e)%string.
  split; [|reflexivity]. rewrite (load_data_raised _ _ _ Hread).
  destruct e; try reflexivity. now destruct (Hkind msg).
Qed.

Lemma C6_witness :
  exists report,
    load_data Examples.broken_file default_csv_path = (Ret None, [Error report]) /\
    report = ("Error loading data: "
              ++ "Error tokenizing data. C error: Expected 2 fields in line 3, saw 5")%string.
Proof.
  apply (C6_other_load_failure Examples.broken_file default_csv_path
           (OtherException
              "Error tokenizing data. C error: Expected 2 fields in line 3, saw 5")).
  - reflexivity.
  - discriminate.
Defined.

(** ** Value counts *)

Lemma total_count_count_value (v : pd.value) (counts : list (pd.value * nat)) :
  total_count (pd.count_value v counts) = S (total_count counts).
Proof.
  induction counts as [|[x n] counts IH]; simpl; [reflexivity|].
  destruct (pd.value_eqb x v); simpl; [reflexivity|]. rewrite IH. lia.
Qed.

Lemma total_count_fold (vs : list pd.value) :
  forall acc,
    total_count (fold_left (fun acc v => pd.count_value v acc) vs acc)
    = length vs + total_count acc.
Proof.
  induction vs as [|v vs IH]; intros acc; simpl; [reflexivity|].
  rewrite IH, total_count_count_value. lia.
Qed.

Lemma insert_count_perm (vn : pd.value * nat) (s : list (pd.value * nat)) :
  Permutation (pd.insert_count vn s) (vn :: s).
Proof.
  induction s as [|wm s IH]; simpl; [apply Permutation_refl|].
  destruct (Nat.leb (snd wm) (snd vn)); [apply Permutation_refl|].
  eapply perm_trans; [apply perm_skip, IH|apply perm_swap].
Qed.

Lemma sort_counts_perm (counts : list (pd.value * nat)) :
  Permutation (pd.sort_counts counts) counts.
Proof.
  induction counts as [|vn counts IH]; simpl; [constructor|].
  eapply perm_trans; [apply insert_count_perm|now apply perm_skip].
Qed.

Lemma total_count_perm (l1 l2 : list (pd.value * nat)) :
  Permutation l1 l2 -> total_count l1 = total_count l2.
Proof.
  induction 1; simpl; lia.
Qed.

(** The counts add up to the number of cells that are not missing. *)
Lemma total_count_value_counts (c : column) :
  total_count (pd.value_counts c) = length (pd.values c).
Proof.
  unfold pd.value_counts.
  rewrite (total_count_perm _ _ (sort_counts_perm _)), total_count_fold.
  simpl. lia.
Qed.

Lemma In_count_value (v x : pd.value) (n : nat) (counts : list (pd.value * nat)) :
  In (x, n) (pd.count_value v counts) -> x = v \/ In x (map fst counts).
Proof.
  induction counts as [|[y m] counts IH]; simpl.
  - intros [[= <- _]|[]]. now left.
  - destruct (pd.value_eqb y v); simpl.
    + intros [[= <- _]|H]; right; [now left|].
      right. change x with (fst (x, n)). now apply in_map.
    + intros [[= <- _]|H]; [right; now left|].
      destruct (IH H) as [->|H']; [now left|right; now right].
Qed.

Lemma In_count_fold (vs : list pd.value) :
  forall acc x n,
    In (x, n) (fold_left (fun acc v => pd.count_value v acc) vs acc) ->
    In x vs \/ In x (map fst acc).
Proof.
  induction vs as [|v vs IH]; intros acc x n; simpl.
  - intros H. right. change x with (fst (x, n)). now apply in_map.
  - intros H. destruct (IH _ _ _ H) as [H'|H']; [left; now right|].
    apply in_map_iff in H' as ([y m] & Hy & Hin). simpl in Hy. subst y.
    destruct (In_count_value _ _ _ _ Hin) as [->|H'']; [left; now left|now right].
Qed.

(** Every category counted is a value of the column. *)
Lemma In_value_counts (c : column) (x : pd.value) (n : nat) :
  In (x, n) (pd.value_counts c) -> In x (pd.values c).
Proof.
  intros H. unfold pd.value_counts in H.
  apply (Permutation_in _ (sort_counts_perm _)) in H.
  destruct (In_count_fold _ _ _ _ H) as [H'|[]]. exact H'.
Qed.

(** A column with a value has a category. *)
Lemma value_counts_nonempty (c : column) :
  pd.values c <> [] -> pd.value_counts c <> [].
Proof.
  intros Hne Hnil. pose proof (total_count_value_counts c) as H.
  rewrite Hnil in H. simpl in H. destruct (pd.values c); [contradiction|discriminate].
Qed.

(** ** The pages *)



Lemma has_potability_lookup (data : DataFrame) :
  has_potability data = true -> exists col, lookup data "Potability" = Some col.
Proof.
  unfold has_potability. rewrite existsb_exists. intros (k & Hin & E).
  apply String.eqb_eq in E. subst k. now apply In_keys_lookup.
Qed.

Lemma lookup_has_potability (data : DataFrame) (col : column) :
  lookup data "Potability" = Some col -> has_potability data = true.
Proof.
  intros H. unfold has_potability. apply existsb_exists.
  exists "Potability". split; [|reflexivity].
  apply lookup_Some_In in H. change "Potability" with (fst ("Potability", col)).
  now apply in_map.
Qed.



Lemma potability_page_counts (data : DataFrame) (col : column) :
  lookup data "Potability" = Some col ->
  pd.values col <> [] ->
  potability_page (Some data)
  = (Ret tt, [Title "💧 Water Potability Summary";
              Write "### Potability Counts";
              Dataframe (TCounts (pd.value_counts col));
              Pyplot (PieChart (pd.value_counts col)
                               (map (fun vn => pie_label (fst vn)) (pd.value_counts col))
                               "Water Potability Distribution")]).
Proof.
  intros Hcol Hne. unfold potability_page.
  rewrite (lookup_has_potability _ _ Hcol). unfold pd.getitem, ax.pie. rewrite Hcol.
  pose proof (value_counts_nonempty col Hne) as Hcounts.
  cbn [bind lift ret emit st.title st.write st.dataframe st.pyplot List.app].
  cbv zeta. destruct (pd.value_counts col) as [|vn counts];
    [contradiction|reflexivity].
Qed.

Lemma values_filled_nonempty (m : Q) (cells : list (option Q)) :
  dropna cells <> [] -> pd.values (NumCol (fill_cells m cells)) <> [].
Proof.
  intros Hne H. simpl in H. apply map_eq_nil in H.
  apply (f_equal (@length Q)) in H. rewrite dropna_fill_cells_length in H.
  destruct cells; [now apply Hne|discriminate].
Qed.

(** C4, as stated, fails: the column the page counts is the imputed one.
    With the label column [0, 1, missing] of a file whose values are all 0
    or 1, the load fills the gap with the median 1/2 and the page counts
    three categories, 0, 1 and 1/2. *)
Lemma C4_counterexample :
  load_data (Examples.one_file Examples.label_gap_frame) default_csv_path
  = (Ret (Some Examples.label_gap_loaded), []) /\
  potability_page (Some Examples.label_gap_loaded)
  = (Ret tt,
     [Title "💧 Water Potability Summary";
      Write "### Potability Counts";
      Dataframe (TCounts [(pd.VNum 0, 1); (pd.VNum 1, 1); (pd.VNum (1 # 2), 1)]);
      Pyplot (PieChart [(pd.VNum 0, 1); (pd.VNum 1, 1); (pd.VNum (1 # 2), 1)]
                       [Some "Not Potable"; Some "Potable"; None]
                       "Water Potability Distribution")]) /\
  ~ ((1 # 2) == 0 \/ (1 # 2) == 1)%Q.
Proof.
  split; [reflexivity|]. split; [reflexivity|].
  intros [H|H]; discriminate H.
Qed.

(** C4, amended: on the Potability page, for every successfully loaded
    Dataset whose Potability column is numeric in the file, with values 0 or
    1 and at least one of them, the value counts add up to the number of
    rows of the Dataset, and each category present is 0, 1 or, when the
    file had missing cells in that column, the median that filled them. *)
Theorem C4_potability_counts (w : world) (path : string) (df : DataFrame)
        (cells : list (option Q)) :
  pd.read_csv w path = Ret df ->
  wf_frame df ->
  lookup df "Potability" = Some (NumCol cells) ->
  dropna cells <> [] ->
  (forall q, In q (dropna cells) -> (q == 0 \/ q == 1)%Q) ->
  exists data pot_counts m,
    load_data w path = (Ret (Some data), []) /\
    potability_page (Some data)
    = (Ret tt,
       [Title "💧 Water Potability Summary";
        Write "### Potability Counts";
        Dataframe (TCounts pot_counts);
        Pyplot (PieChart pot_counts (map (fun vn => pie_label (fst vn)) pot_counts)
                         "Water Potability Distribution")]) /\
    total_count pot_counts = nrows data /\
    pd.median_values (dropna cells) = Some m /\
    forall v n,
      In (v, n) pot_counts ->
      exists q, v = pd.VNum q /\
                ((q == 0)%Q \/ (q == 1)%Q \/
                 (has_missing (NumCol cells) = true /\ q = m)).
Proof.
  intros Hread [Hnd Hrect] Hcol Hne Hbin.
  destruct (median_values_Some _ Hne) as [m Hm].
  assert (Hloaded : lookup (impute df) "Potability" = Some (NumCol (fill_cells m cells))).
  { rewrite lookup_impute, Hcol. simpl. now rewrite Hm. }
  exists (impute df), (pd.value_counts (NumCol (fill_cells m cells))), m.
  split; [now apply load_data_parsed|].
  split; [apply potability_page_counts;
          [assumption|now apply values_filled_nonempty]|].
  split; [|split; [assumption|]].
  - rewrite total_count_value_counts, nrows_impute. simpl.
    rewrite length_map, dropna_fill_cells_length.
    apply lookup_Some_In in Hcol. rewrite Forall_forall in Hrect.
    exact (Hrect _ Hcol).
  - intros v n Hin. apply In_value_counts in Hin. simpl in Hin.
    apply in_map_iff in Hin as (q & <- & Hq). exists q. split; [reflexivity|].
    destruct (In_dropna_fill _ _ _ Hq) as [H|H].
    + destruct (Hbin q H); auto.
    + right. right. exact H.
Qed.

Lemma C4_witness :
  exists data pot_counts m,
    load_data (Examples.one_file Examples.ph_frame) default_csv_path
    = (Ret (Some data), []) /\
    potability_page (Some data)
    = (Ret tt,
       [Title "💧 Water Potability Summary";
        Write "### Potability Counts";
        Dataframe (TCounts pot_counts);
        Pyplot (PieChart pot_counts (map (fun vn => pie_label (fst vn)) pot_counts)
                         "Water Potability Distribution")]) /\
    total_count pot_counts = nrows data /\
    pd.median_values (dropna [Some 1%Q; Some 0%Q; Some 1%Q]) = Some m /\
    forall v n,
      In (v, n) pot_counts ->
      exists q, v = pd.VNum q /\
                ((q == 0)%Q \/ (q == 1)%Q \/
                 (has_missing (NumCol [Some 1%Q; Some 0%Q; Some 1%Q]) = true /\ q = m)).
Proof.
  apply (C4_potability_counts (Examples.one_file Examples.ph_frame)
                              default_csv_path Examples.ph_frame).
  - reflexivity.
  - split; [distinct_names|repeat constructor].
  - reflexivity.
  - simpl. discriminate.
  - simpl. intros q [<-|[<-|[<-|[]]]]; [right|left|right]; reflexivity.
Defined.

(** The value counts of the end-to-end example of the specification. *)
Example potability_counts_example :
  pd.value_counts (NumCol [Some 1%Q; Some 0%Q; Some 1%Q])
  = [(pd.VNum 1, 2); (pd.VNum 0, 1)].
Proof. reflexivity. Qed.






(** The pH column of [site_loaded] meets the condition of C8, and the
    Distribution page draws it. *)
Example distribution_of_ph :
  finite_complete (NumCol [Some 7%Q; Some 8%Q; Some 9%Q]) /\
  render (Examples.one_file Examples.site_frame) (Examples.picks 3 1)
         (Some (page_name Distribution)) (Some Examples.site_loaded)
  = (Ret tt,
     [Title "📊 Parameter Distribution";
      Selectbox "Select Parameter for Distribution" ["Site"; "pH"];
      Pyplot (Histogram (NumCol [Some 7%Q; Some 8%Q; Some 9%Q]) 20 "pH" "Frequency"
                        "pH Distribution")]).
Proof.
  split; [|reflexivity].
  split; [discriminate|]. split; [reflexivity|]. split.
  - repeat constructor;
      [float64_number 7%Z 0%Z|float64_number 8%Z 0%Z|float64_number 9%Z 0%Z].
  - repeat constructor; discriminate.
Qed.








(** A failed load seen on the Dataset Overview page: the error of the load
    and the warning of the page, and the script completes. *)
Example failed_load_overview :
  app_script Examples.no_file (Examples.picks 1 0)
  = (Ret tt,
     [PageConfig "Water Quality Dashboard" "💧" "wide";
      Error "File not found: data/water_potability.csv";
      SidebarTitle "📌 Navigation";
      SidebarRadio "Go to" page_options;
      Title "📁 Dataset Overview";
      Warning "Dataset not found. Please add your CSV in the data folder.";
      Markdown "---";
      Markdown "© 2026 | Water Quality Dashboard"]).
Proof. reflexivity. Qed.


(** * Further properties *)

(** ** [load_data]: the try/except as a whole *)

Lemma load_data_contained (w : world) (path : string) :
  (exists data, load_data w path = (Ret (Some data), [])) \/
  (exists msg, load_data w path = (Ret None, [Error msg])).
Proof.
  unfold load_data.
  destruct (pd.read_csv w path) as [df|e0]; simpl.
  2:{ right. destruct e0; eexists; reflexivity. }
  destruct (pd.getitem_list df (columns (pd.select_dtypes_number df)))
    as [sub|e1]; simpl.
  2:{ right. destruct e1; eexists; reflexivity. }
  destruct (pd.median sub) as [med|e2]; simpl.
  2:{ right. destruct e2; eexists; reflexivity. }
  destruct (pd.setitem_list df (columns (pd.select_dtypes_number df))
                            (pd.fillna sub med)) as [df'|e3]; simpl.
  2:{ right. destruct e3; eexists; reflexivity. }
  left. now exists df'.
Qed.

(** X1: [load_data] never lets an exception out, whatever the read does and
    whatever frame it yields: either it returns a Dataset and reports
    nothing, or it returns None and reports exactly one error. *)
Theorem load_data_never_raises (w : world) (path : string) :
  exists (r : option DataFrame) (log : list event),
    load_data w path = (Ret r, log) /\
    match r with
    | Some _ => log = []
    | None => exists msg, log = [Error msg]
    end.
Proof.
  destruct (load_data_contained w path) as [[data H]|[msg H]].
  - exists (Some data), []. now split.
  - exists None, [Error msg]. split; [assumption|now exists msg].
Qed.

Lemma impute_col_idempotent (c : column) : impute_col (impute_col c) = impute_col c.
Proof.
  destruct c as [cells|cells]; [|reflexivity].
  simpl. destruct (pd.median_values (dropna cells)) as [m|] eqn:E.
  - apply impute_col_complete. simpl. apply fill_cells_filled.
  - simpl. now rewrite E.
Qed.

Lemma impute_idempotent (df : DataFrame) : impute (impute df) = impute df.
Proof.
  unfold impute. rewrite map_map. apply map_ext. intros [k c]. simpl.
  now rewrite impute_col_idempotent.
Qed.

(** X2: loading is idempotent.  A file that holds what an earlier load
    returned is loaded as it is. *)
Theorem load_data_idempotent (w w' : world) (path path' : string)
        (df data : DataFrame) :
  pd.read_csv w path = Ret df ->
  NoDup (columns df) ->
  load_data w path = (Ret (Some data), []) ->
  pd.read_csv w' path' = Ret data ->
  load_data w' path' = (Ret (Some data), []).
Proof.
  intros Hread Hnd Hload Hread'.
  rewrite (load_data_parsed _ _ _ Hread Hnd) in Hload.
  injection Hload as <-.
  rewrite (load_data_parsed _ _ _ Hread').
  - now rewrite impute_idempotent.
  - now rewrite columns_impute.
Qed.

Lemma load_data_idempotent_witness :
  load_data (Examples.one_file Examples.label_gap_loaded) default_csv_path
  = (Ret (Some Examples.label_gap_loaded), []).
Proof.
  apply (load_data_idempotent (Examples.one_file Examples.label_gap_frame)
                              (Examples.one_file Examples.label_gap_loaded)
                              default_csv_path default_csv_path
                              Examples.label_gap_frame Examples.label_gap_loaded).
  - reflexivity.
  - distinct_names.
  - reflexivity.
  - reflexivity.
Defined.

(** X3: a file in which no numeric column has a missing cell is returned
    exactly as it was read, text columns with their gaps included. *)
Theorem load_data_complete_file (w : world) (path : string) (df : DataFrame) :
  pd.read_csv w path = Ret df ->
  NoDup (columns df) ->
  (forall k c, In (k, c) df -> pd.is_number c = true -> has_missing c = false) ->
  load_data w path = (Ret (Some df), []).
Proof.
  intros Hread Hnd Hfull. rewrite (load_data_parsed _ _ _ Hread Hnd).
  do 3 f_equal. unfold impute. rewrite <- (map_id df) at 2.
  apply map_ext_in. intros [k c] Hin. simpl. f_equal.
  destruct c as [cells|cells]; [|reflexivity].
  apply impute_col_complete. now apply (Hfull k).
Qed.

Lemma load_data_complete_file_witness :
  load_data (Examples.one_file
               [("Site", ObjCol [Some "north"; None]);
                ("pH", NumCol [Some 7%Q; Some 9%Q])])
            default_csv_path
  = (Ret (Some [("Site", ObjCol [Some "north"; None]);
                ("pH", NumCol [Some 7%Q; Some 9%Q])]), []).
Proof.
  apply (load_data_complete_file
           (Examples.one_file [("Site", ObjCol [Some "north"; None]);
                               ("pH", NumCol [Some 7%Q; Some 9%Q])])
           default_csv_path).
  - reflexivity.
  - distinct_names.
  - simpl. intros k c [[= <- <-]|[[= <- <-]|[]]]; simpl; congruence.
Defined.

(** ** The fill value *)





Lemma standard_median_unique (s : list Q) (m m' : Q) :
  standard_median s m -> standard_median s m' -> (m == m')%Q.
Proof.
  unfold standard_median. destruct (Nat.odd (length s)).
  - intros (a & Ha & Hma) (a' & Ha' & Hma').
    assert (a' = a) by congruence. subst a'.
    apply (Qeq_trans _ a); [assumption|now apply Qeq_sym].
  - intros (a & b & Ha & Hb & Hm) (a' & b' & Ha' & Hb' & Hm').
    assert (a' = a) by congruence. assert (b' = b) by congruence. subst a' b'.
    apply (Qeq_trans _ ((a + b) / 2)%Q); [assumption|now apply Qeq_sym].
Qed.

(** The median does not depend on the order of the values. *)
Lemma median_values_perm (xs ys : list Q) (m m' : Q) :
  Permutation xs ys ->
  pd.median_values xs = Some m -> pd.median_values ys = Some m' -> (m == m')%Q.
Proof.
  intros Hp Hm Hm'.
  apply (standard_median_unique (pd.sort ys)).
  - apply (median_values_standard xs); [assumption| |apply sort_Sorted].
    eapply perm_trans; [apply sort_perm|now apply Permutation_sym].
  - apply (median_values_standard ys); [assumption|apply sort_perm|apply sort_Sorted].
Qed.

(** X5: the fill value of a column does not depend on the order of the rows:
    two files whose columns [k] hold the same values in a different row
    order have that column filled with the same number. *)
Theorem fill_value_independent_of_row_order (w1 w2 : world) (path1 path2 : string)
        (df1 df2 : DataFrame) (k : string) (cells1 cells2 : list (option Q)) :
  pd.read_csv w1 path1 = Ret df1 -> NoDup (columns df1) ->
  pd.read_csv w2 path2 = Ret df2 -> NoDup (columns df2) ->
  lookup df1 k = Some (NumCol cells1) ->
  lookup df2 k = Some (NumCol cells2) ->
  Permutation (dropna cells1) (dropna cells2) ->
  dropna cells1 <> [] ->
  exists data1 data2 m1 m2,
    load_data w1 path1 = (Ret (Some data1), []) /\
    load_data w2 path2 = (Ret (Some data2), []) /\
    lookup data1 k = Some (NumCol (fill_cells m1 cells1)) /\
    lookup data2 k = Some (NumCol (fill_cells m2 cells2)) /\
    (m1 == m2)%Q.
Proof.
  intros Hr1 Hn1 Hr2 Hn2 Hk1 Hk2 Hp Hne1.
  assert (Hne2 : dropna cells2 <> []).
  { intros E. rewrite E in Hp. apply Permutation_sym, Permutation_nil in Hp.
    contradiction. }
  destruct (median_values_Some _ Hne1) as [m1 Hm1].
  destruct (median_values_Some _ Hne2) as [m2 Hm2].
  exists (impute df1), (impute df2), m1, m2.
  split; [now apply load_data_parsed|]. split; [now apply load_data_parsed|].
  split; [rewrite lookup_impute, Hk1; simpl; now rewrite Hm1|].
  split; [rewrite lookup_impute, Hk2; simpl; now rewrite Hm2|].
  now apply (median_values_perm (dropna cells1) (dropna cells2)).
Qed.

Lemma fill_value_independent_of_row_order_witness :
  exists data1 data2 m1 m2,
    load_data (Examples.one_file [("pH", NumCol [Some 7%Q; None; Some 9%Q])])
              default_csv_path = (Ret (Some data1), []) /\
    load_data (Examples.one_file [("pH", NumCol [None; Some 9%Q; Some 7%Q])])
              default_csv_path = (Ret (Some data2), []) /\
    lookup data1 "pH" = Some (NumCol (fill_cells m1 [Some 7%Q; None; Some 9%Q])) /\
    lookup data2 "pH" = Some (NumCol (fill_cells m2 [None; Some 9%Q; Some 7%Q])) /\
    (m1 == m2)%Q.
Proof.
  apply (fill_value_independent_of_row_order
           (Examples.one_file [("pH", NumCol [Some 7%Q; None; Some 9%Q])])
           (Examples.one_file [("pH", NumCol [None; Some 9%Q; Some 7%Q])])
           default_csv_path default_csv_path
           [("pH", NumCol [Some 7%Q; None; Some 9%Q])]
           [("pH", NumCol [None; Some 9%Q; Some 7%Q])] "pH").
  - reflexivity.
  - distinct_names.
  - reflexivity.
  - distinct_names.
  - reflexivity.
  - reflexivity.
  - simpl. apply perm_swap.
  - simpl. discriminate.
Defined.

(** ** The Dataset Overview page *)

Lemma ncols_impute (df : DataFrame) : ncols (impute df) = ncols df.
Proof. unfold ncols, impute. apply length_map. Qed.

Lemma lookup_isnull_sum (df : DataFrame) (k : string) :
  lookup (isnull_sum df) k = option_map isnull_count (lookup df k).
Proof. apply lookup_map_snd. Qed.

Lemma dropna_length_le {A : Type} (cells : list (option A)) :
  length (dropna cells) <= length cells.
Proof.
  induction cells as [|[v|] cells IH]; simpl; lia.
Qed.

(** X6: on the Dataset Overview page of a loaded file, the row count, the
    column count and the column names shown are those of the file: the
    imputation changes none of them. *)
Theorem overview_shows_shape_of_file (w : world) (path : string) (df : DataFrame) :
  pd.read_csv w path = Ret df ->
  NoDup (columns df) ->
  exists data,
    load_data w path = (Ret (Some data), []) /\
    overview_page (Some data)
    = (Ret tt,
       [Title "📁 Dataset Overview";
        Write "### Sample Records";
        Dataframe (TFrame (head 50 data));
        Write "### Dataset Shape";
        Write ("Rows: " ++ nat_str (nrows df));
        Write ("Columns: " ++ nat_str (ncols df));
        Write "### Column Names";
        WriteList (columns df);
        Write "### Missing Values";
        Dataframe (TIsnullSum (isnull_sum data));
        Write "### Basic Statistics";
        Dataframe (TDescribe data)]).
Proof.
  intros Hread Hnd. exists (impute df).
  split; [now apply load_data_parsed|].
  unfold overview_page.
  rewrite nrows_impute, ncols_impute, columns_impute. reflexivity.
Qed.

Lemma overview_shows_shape_of_file_witness :
  exists data,
    load_data (Examples.one_file Examples.site_frame) default_csv_path
    = (Ret (Some data), []) /\
    overview_page (Some data)
    = (Ret tt,
       [Title "📁 Dataset Overview";
        Write "### Sample Records";
        Dataframe (TFrame (head 50 data));
        Write "### Dataset Shape";
        Write ("Rows: " ++ nat_str (nrows Examples.site_frame));
        Write ("Columns: " ++ nat_str (ncols Examples.site_frame));
        Write "### Column Names";
        WriteList (columns Examples.site_frame);
        Write "### Missing Values";
        Dataframe (TIsnullSum (isnull_sum data));
        Write "### Basic Statistics";
        Dataframe (TDescribe data)]).
Proof.
  apply (overview_shows_shape_of_file (Examples.one_file Examples.site_frame)
                                      default_csv_path Examples.site_frame).
  - reflexivity.
  - distinct_names.
Defined.

(** X7: the "Missing Values" table of the Dataset Overview page is computed
    on the imputed Dataset.  For a loaded file it shows 0 for every numeric
    column that has a value and only finite values, the number of rows of
    the column for a numeric column without any value, and for a text column
    the number of gaps the file has. *)
Theorem overview_missing_values_after_load (w : world) (path : string)
        (df : DataFrame) :
  pd.read_csv w path = Ret df ->
  NoDup (columns df) ->
  exists data,
    load_data w path = (Ret (Some data), []) /\
    In (Dataframe (TIsnullSum (isnull_sum data))) (snd (overview_page (Some data))) /\
    columns data = map fst (isnull_sum data) /\
    (forall k cells,
        lookup df k = Some (NumCol cells) -> dropna cells <> [] ->
        Forall binary64 (dropna cells) ->
        lookup (isnull_sum data) k = Some 0) /\
    (forall k cells,
        lookup df k = Some (NumCol cells) -> dropna cells = [] ->
        lookup (isnull_sum data) k = Some (length cells)) /\
    (forall k cells,
        lookup df k = Some (ObjCol cells) ->
        lookup (isnull_sum data) k = Some (length cells - length (dropna cells))).
Proof.
  intros Hread Hnd. exists (impute df).
  split; [now apply load_data_parsed|]. split.
  { simpl. do 9 right. left. reflexivity. }
  split.
  { unfold isnull_sum, columns. rewrite map_map. reflexivity. }
  split; [|split].
  - intros k cells Hk Hne _. rewrite lookup_isnull_sum, lookup_impute, Hk. simpl.
    destruct (median_values_Some _ Hne) as [m Hm]. rewrite Hm. simpl.
    rewrite dropna_fill_cells_length, length_fill_cells. f_equal. lia.
  - intros k cells Hk He. rewrite lookup_isnull_sum, lookup_impute, Hk. simpl.
    rewrite He. simpl. rewrite He. simpl. f_equal. lia.
  - intros k cells Hk. rewrite lookup_isnull_sum, lookup_impute, Hk. reflexivity.
Qed.

Lemma overview_missing_values_after_load_witness :
  exists data,
    load_data (Examples.one_file Examples.site_frame) default_csv_path
    = (Ret (Some data), []) /\
    In (Dataframe (TIsnullSum (isnull_sum data))) (snd (overview_page (Some data))) /\
    columns data = map fst (isnull_sum data) /\
    (forall k cells,
        lookup Examples.site_frame k = Some (NumCol cells) -> dropna cells <> [] ->
        Forall binary64 (dropna cells) ->
        lookup (isnull_sum data) k = Some 0) /\
    (forall k cells,
        lookup Examples.site_frame k = Some (NumCol cells) -> dropna cells = [] ->
        lookup (isnull_sum data) k = Some (length cells)) /\
    (forall k cells,
        lookup Examples.site_frame k = Some (ObjCol cells) ->
        lookup (isnull_sum data) k = Some (length cells - length (dropna cells))).
Proof.
  apply (overview_missing_values_after_load
           (Examples.one_file Examples.site_frame) default_csv_path
           Examples.site_frame).
  - reflexivity.
  - distinct_names.
Defined.

(** ** The Potability page *)

(** X9: a Dataset without a column named exactly "Potability" makes the
    Potability page show its title and one warning; the column is not
    accessed and nothing is raised. *)
Theorem potability_page_without_label (data : DataFrame) :
  lookup data "Potability" = None ->
  potability_page (Some data)
  = (Ret tt, [Title "💧 Water Potability Summary";
              Warning "No 'Potability' column found in dataset."]).
Proof.
  intros Hnone. unfold potability_page.
  destruct (has_potability data) eqn:E; [|reflexivity].
  destruct (has_potability_lookup data E) as [col Hcol]. congruence.
Qed.

Lemma potability_page_without_label_witness :
  potability_page (Some [("pH", NumCol [Some 7%Q]); ("potability", NumCol [Some 1%Q])])
  = (Ret tt, [Title "💧 Water Potability Summary";
              Warning "No 'Potability' column found in dataset."]).
Proof.
  apply (potability_page_without_label
           [("pH", NumCol [Some 7%Q]); ("potability", NumCol [Some 1%Q])]).
  reflexivity.
Defined.

(** X10: on the Potability page the counts and the gaps account for every
    row: when the Potability column has at least one value, the counts shown
    add up to the number of rows of the Dataset minus the number of missing
    cells that the Dataset Overview reports for that column. *)
Theorem potability_counts_and_missing (data : DataFrame) (col : column) :
  wf_frame data ->
  lookup data "Potability" = Some col ->
  pd.values col <> [] ->
  exists missing pot_counts labels,
    lookup (isnull_sum data) "Potability" = Some missing /\
    potability_page (Some data)
    = (Ret tt,
       [Title "💧 Water Potability Summary";
        Write "### Potability Counts";
        Dataframe (TCounts pot_counts);
        Pyplot (PieChart pot_counts labels "Water Potability Distribution")]) /\
    total_count pot_counts + missing = nrows data.
Proof.
  intros [_ Hrect] Hcol Hne.
  exists (isnull_count col), (pd.value_counts col),
         (map (fun vn => pie_label (fst vn)) (pd.value_counts col)).
  split; [now rewrite lookup_isnull_sum, Hcol|].
  split; [now apply potability_page_counts|].
  rewrite total_count_value_counts.
  apply lookup_Some_In in Hcol as Hin. rewrite Forall_forall in Hrect.
  rewrite <- (Hrect _ Hin). simpl.
  destruct col as [cells|cells]; simpl; rewrite length_map;
    pose proof (dropna_length_le cells); lia.
Qed.

Lemma potability_counts_and_missing_witness :
  exists missing pot_counts labels,
    lookup (isnull_sum Examples.text_label_frame) "Potability" = Some missing /\
    potability_page (Some Examples.text_label_frame)
    = (Ret tt,
       [Title "💧 Water Potability Summary";
        Write "### Potability Counts";
        Dataframe (TCounts pot_counts);
        Pyplot (PieChart pot_counts labels "Water Potability Distribution")]) /\
    total_count pot_counts + missing = nrows Examples.text_label_frame.
Proof.
  apply (potability_counts_and_missing Examples.text_label_frame
                                       (ObjCol [Some "yes"; None; Some "no"])).
  - split; [distinct_names|repeat constructor].
  - reflexivity.
  - simpl. discriminate.
Defined.

(** The frame of the witness is what a load returns: the text label keeps its
    gap, which the page then leaves out of the counts. *)
Example text_label_loaded :
  load_data (Examples.one_file Examples.text_label_frame) default_csv_path
  = (Ret (Some Examples.text_label_frame), []).
Proof. reflexivity. Qed.

Lemma value_eqb_refl (v : pd.value) : pd.value_eqb v v = true.
Proof.
  destruct v; simpl; [apply Qeq_bool_refl|apply String.eqb_refl].
Qed.

Lemma count_value_distinct (v : pd.value) (counts : list (pd.value * nat)) :
  distinct_categories counts -> distinct_categories (pd.count_value v counts).
Proof.
  unfold distinct_categories.
  induction 1 as [|[w n] counts Hw Hrest IH]; simpl.
  - constructor; constructor.
  - destruct (pd.value_eqb w v) eqn:E.
    + constructor; assumption.
    + constructor; [|assumption].
      apply Forall_forall. intros [x m] Hin. simpl.
      destruct (In_count_value _ _ _ _ Hin) as [->|Hx]; [assumption|].
      apply in_map_iff in Hx as ([x' m'] & Hfst & Hin'). simpl in Hfst. subst x'.
      rewrite Forall_forall in Hw. exact (Hw _ Hin').
Qed.

Lemma count_value_counted (v x : pd.value) (counts : list (pd.value * nat)) :
  (exists w n, In (w, n) counts /\ pd.value_eqb w x = true) \/ x = v ->
  exists w n, In (w, n) (pd.count_value v counts) /\ pd.value_eqb w x = true.
Proof.
  induction counts as [|[y m] counts IH]; simpl.
  - intros [(w & n & [] & _)| ->]. exists v, 1. split; [now left|apply value_eqb_refl].
  - intros H. destruct (pd.value_eqb y v) eqn:E.
    + destruct H as [(w & n & [[= <- <-]|Hin] & Hw)| ->].
      * exists y, (S m). split; [now left|assumption].
      * exists w, n. split; [now right|assumption].
      * exists y, (S m). split; [now left|assumption].
    + destruct H as [(w & n & [[= <- <-]|Hin] & Hw)| ->].
      * exists y, m. split; [now left|assumption].
      * destruct IH as (w' & n' & Hin' & Hw'); [left; now exists w, n|].
        exists w', n'. split; [now right|assumption].
      * destruct IH as (w' & n' & Hin' & Hw'); [now right|].
        exists w', n'. split; [now right|assumption].
Qed.

Lemma fold_count_distinct (vs : list pd.value) :
  forall acc,
    distinct_categories acc ->
    distinct_categories (fold_left (fun acc v => pd.count_value v acc) vs acc).
Proof.
  induction vs as [|v vs IH]; intros acc Hacc; simpl; [assumption|].
  apply IH. now apply count_value_distinct.
Qed.

Lemma fold_count_counted (vs : list pd.value) :
  forall acc x,
    (exists w n, In (w, n) acc /\ pd.value_eqb w x = true) \/ In x vs ->
    exists w n,
      In (w, n) (fold_left (fun acc v => pd.count_value v acc) vs acc) /\
      pd.value_eqb w x = true.
Proof.
  induction vs as [|v vs IH]; intros acc x; simpl.
  - intros [H|[]]. exact H.
  - intros [H|[->|H]]; apply IH.
    + left. apply count_value_counted. now left.
    + left. apply count_value_counted. now right.
    + now right.
Qed.

Lemma value_eqb_sym (a b : pd.value) : pd.value_eqb a b = pd.value_eqb b a.
Proof.
  destruct a, b; simpl; try reflexivity; [apply Qeq_bool_comm|apply String.eqb_sym].
Qed.

Lemma insert_count_distinct (vn : pd.value * nat) (s : list (pd.value * nat)) :
  distinct_categories s ->
  Forall (fun b => pd.value_eqb (fst vn) (fst b) = false) s ->
  distinct_categories (pd.insert_count vn s).
Proof.
  unfold distinct_categories.
  induction 1 as [|wm s Hwm Hs IH]; intros Hvn; simpl.
  - constructor; constructor.
  - destruct (Nat.leb (snd wm) (snd vn)).
    + constructor; [assumption|]. now constructor.
    + inversion Hvn as [|? ? Hhead Htail]; subst.
      constructor; [|now apply IH].
      apply (Permutation_Forall (Permutation_sym (insert_count_perm vn s))).
      constructor; [|assumption]. now rewrite value_eqb_sym.
Qed.

Lemma sort_counts_distinct (counts : list (pd.value * nat)) :
  distinct_categories counts -> distinct_categories (pd.sort_counts counts).
Proof.
  unfold distinct_categories.
  induction 1 as [|vn counts Hvn Hrest IH]; simpl; [constructor|].
  apply insert_count_distinct; [assumption|].
  exact (Permutation_Forall (Permutation_sym (sort_counts_perm counts)) Hvn).
Qed.

(** X11: the table of counts drawn on the Potability page lists every value
    of the column that is not missing, under one category equal to it, and
    lists no category twice. *)
Theorem value_counts_categories (col : column) :
  distinct_categories (pd.value_counts col) /\
  forall v, In v (pd.values col) ->
            exists w n, In (w, n) (pd.value_counts col) /\ pd.value_eqb w v = true.
Proof.
  unfold pd.value_counts. split.
  - apply sort_counts_distinct, fold_count_distinct. constructor.
  - intros v Hv.
    destruct (fold_count_counted (pd.values col) [] v) as (x & n & Hin & Hx);
      [now right|].
    exists x, n. split; [|assumption].
    exact (Permutation_in _ (Permutation_sym (sort_counts_perm _)) Hin).
Qed.

(** ** The script as a whole *)

(** The sidebar radio always yields one of the six pages. *)
Lemma radio_page (i : nat) :
  exists p, chosen page_options i = Some (page_name p).
Proof.
  unfold chosen, page_options.
  destruct i as [|[|[|[|[|[|i]]]]]]; simpl.
  - now exists Home.
  - now exists DatasetOverview.
  - now exists ParameterTrends.
  - now exists Distribution.
  - now exists Potability.
  - now exists About.
  - destruct i; now exists Home.
Qed.

(** The output of the script, from the outcome of its three parts. *)
Lemma app_script_parts (w : world) (ui : UI) (data : option DataFrame)
      (load_log page_log : list event) (page : string) (o : outcome unit) :
  load_data w default_csv_path = (Ret data, load_log) ->
  chosen page_options (radio_index ui) = Some page ->
  render w ui (Some page) data = (o, page_log) ->
  app_script w ui
  = match o with
    | Ret _ => (Ret tt, preamble load_log ++ page_log ++ footer)
    | Raise e => (Raise e, preamble load_log ++ page_log)
    end.
Proof.
  intros Hload Hpage Hrender.
  unfold app_script, st.sidebar.radio, preamble, footer. rewrite Hload.
  cbn [bind st.set_page_config st.sidebar.title emit ret List.app].
  rewrite Hpage, Hrender.
  destruct o as [[]|e]; cbn [bind st.markdown emit List.app];
    rewrite <- !app_assoc; reflexivity.
Qed.

Ltac page_cases w data :=
  unfold render; simpl py_eq; cbv iota;
  unfold home_page, overview_page, trends_page, distribution_page,
    potability_page, about_page, st.image, st.selectbox, pd.getitem,
    ax.plot, ax.hist, ax.pie;
  try destruct (image_files w "assets/cover.jpg");
  try (destruct data as [?d|];
       repeat match goal with
              | |- _ => progress cbn [bind ret emit lift pd.getitem List.app]
              | |- _ => progress cbv zeta
              | |- context [has_potability ?d] => destruct (has_potability d)
              | |- context [chosen (parameters ?d) ?i] =>
                  destruct (chosen (parameters d) i) as [?sel|]
              | |- context [lookup ?d ?k] => destruct (lookup d k)
              | |- context [ax.mixed_text ?c] => destruct (ax.mixed_text c)
              | |- context [ax.all_nan ?c] => destruct (ax.all_nan c)
              | |- context [pd.value_counts ?c] => destruct (pd.value_counts c)
              end).

(** A page that raises has put out no footer line. *)
Lemma render_raise_no_footer (w : world) (ui : UI) (p : PageSelection)
      (data : option DataFrame) (e : exn) (log : list event) :
  render w ui (Some (page_name p)) data = (Raise e, log) ->
  ~ In (Markdown "---") log.
Proof.
  destruct p; page_cases w data; simpl; intros H; inversion H; subst; simpl;
    intuition discriminate.
Qed.

Lemma render_one_title (w : world) (ui : UI) (p : PageSelection)
      (data : option DataFrame) :
  count_titles (snd (render w ui (Some (page_name p)) data)) = 1.
Proof.
  destruct p; page_cases w data; reflexivity.
Qed.

Lemma count_titles_app (l1 l2 : list event) :
  count_titles (l1 ++ l2) = count_titles l1 + count_titles l2.
Proof. unfold count_titles. now rewrite filter_app, length_app. Qed.

Lemma count_titles_preamble (load_log : list event) :
  count_titles (preamble load_log) = count_titles load_log.
Proof.
  unfold preamble. change (PageConfig ?a ?b ?c :: ?l) with ([PageConfig a b c] ++ l).
  rewrite !count_titles_app.
  change (count_titles [PageConfig "Water Quality Dashboard" "💧" "wide"]) with 0.
  change (count_titles [SidebarTitle "📌 Navigation";
                        SidebarRadio "Go to" page_options]) with 0.
  lia.
Qed.

(** X12: every run of the script shows exactly one page title, whatever the
    file, the widgets and the outcome: the radio always yields one of the
    six pages, one branch of the chain runs, and neither the load nor the
    frame of the script adds a title. *)
Theorem script_shows_one_title (w : world) (ui : UI) :
  count_titles (snd (app_script w ui)) = 1.
Proof.
  destruct (radio_page (radio_index ui)) as [p Hp].
  destruct (render w ui (Some (page_name p)) None) as [o0 plog0] eqn:Hr0.
  pose proof (render_one_title w ui p None) as Ht0. rewrite Hr0 in Ht0.
  destruct (load_data_contained w default_csv_path) as [[data Hl]|[msg Hl]].
  - destruct (render w ui (Some (page_name p)) (Some data)) as [o plog] eqn:Hr.
    pose proof (render_one_title w ui p (Some data)) as Ht. rewrite Hr in Ht.
    rewrite (app_script_parts _ _ _ _ _ _ _ Hl Hp Hr).
    destruct o; cbv iota; cbn [snd] in *;
      rewrite ?count_titles_app, count_titles_preamble, Ht; reflexivity.
  - rewrite (app_script_parts _ _ _ _ _ _ _ Hl Hp Hr0).
    destruct o0; cbv iota; cbn [snd] in *;
      rewrite ?count_titles_app, count_titles_preamble, Ht0; reflexivity.
Qed.

Lemma not_In_preamble (load_log : list event) :
  ~ In (Markdown "---") load_log -> ~ In (Markdown "---") (preamble load_log).
Proof.
  intros H. unfold preamble. simpl. rewrite in_app_iff. simpl.
  intuition discriminate.
Qed.

(** X13: the footer is what a completed run ends with, and only a completed
    run has it: when the script completes, its output is the configuration
    first and the two footer lines last; when the page raises, the script
    stops there and the footer rule is not in the output. *)
Theorem script_footer_iff_completes (w : world) (ui : UI) :
  match app_script w ui with
  | (Ret _, log) =>
      exists body,
        log = PageConfig "Water Quality Dashboard" "💧" "wide" :: body ++ footer
  | (Raise _, log) => ~ In (Markdown "---") log
  end.
Proof.
  destruct (radio_page (radio_index ui)) as [p Hp].
  assert (Hcase :
            forall data load_log,
              load_data w default_csv_path = (Ret data, load_log) ->
              ~ In (Markdown "---") load_log ->
              match app_script w ui with
              | (Ret _, log) =>
                  exists body,
                    log = PageConfig "Water Quality Dashboard" "💧" "wide"
                          :: body ++ footer
              | (Raise _, log) => ~ In (Markdown "---") log
              end).
  { intros data load_log Hl Hno.
    destruct (render w ui (Some (page_name p)) data) as [o plog] eqn:Hr.
    rewrite (app_script_parts _ _ _ _ _ _ _ Hl Hp Hr).
    destruct o as [[]|e].
    - unfold preamble.
      exists ((load_log ++ [SidebarTitle "📌 Navigation";
                            SidebarRadio "Go to" page_options]) ++ plog).
      rewrite <- app_comm_cons, app_assoc. reflexivity.
    - intros Hin. apply in_app_iff in Hin as [Hin|Hin].
      + now apply (not_In_preamble load_log).
      + now apply (render_raise_no_footer _ _ _ _ _ _ Hr). }
  destruct (load_data_contained w default_csv_path) as [[data Hl]|[msg Hl]].
  - apply (Hcase _ _ Hl). intros [].
  - apply (Hcase _ _ Hl). simpl. intuition discriminate.
Qed.

Lemma chosen_nil (i : nat) : chosen [] i = None.
Proof. unfold chosen. now destruct i. Qed.

Lemma columns_all_label_parameters (data : DataFrame) :
  (forall col, In col (columns data) -> col = "Potability") ->
  parameters data = [].
Proof.
  intros Hall. unfold parameters.
  induction (columns data) as [|col cols IH]; simpl; [reflexivity|].
  rewrite (Hall col) by now left. simpl. apply IH.
  intros c Hc. apply Hall. now right.
Qed.

(** X14: when the file has no column other than Potability, the Parameter
    Trends and Distribution pages have nothing to offer: the selectbox is
    shown with an empty list and returns None, the column access raises
    KeyError, and the script stops there, without a plot and without the
    footer. *)
Theorem parameter_pages_without_parameters (w : world) (ui : UI) (df : DataFrame)
        (p : PageSelection) :
  pd.read_csv w default_csv_path = Ret df ->
  NoDup (columns df) ->
  (forall col, In col (columns df) -> col = "Potability") ->
  p = ParameterTrends \/ p = Distribution ->
  chosen page_options (radio_index ui) = Some (page_name p) ->
  app_script w ui
  = (Raise (KeyError None),
     preamble []
     ++ match p with
        | ParameterTrends =>
            [Title "📈 Parameter Trends Over Samples";
             Selectbox "Select Parameter" []]
        | _ =>
            [Title "📊 Parameter Distribution";
             Selectbox "Select Parameter for Distribution" []]
        end).
Proof.
  intros Hread Hnd Hall Hp Hpage.
  pose proof (load_data_parsed _ _ _ Hread Hnd) as Hload.
  assert (Hparams : parameters (impute df) = []).
  { apply columns_all_label_parameters. now rewrite columns_impute. }
  destruct Hp as [-> | ->].
  - rewrite (app_script_parts _ _ _ _
               [Title "📈 Parameter Trends Over Samples";
                Selectbox "Select Parameter" []]
               _ (Raise (KeyError None)) Hload Hpage); [reflexivity|].
    unfold render; simpl py_eq; cbv iota.
    unfold trends_page, st.selectbox. rewrite Hparams, chosen_nil. reflexivity.
  - rewrite (app_script_parts _ _ _ _
               [Title "📊 Parameter Distribution";
                Selectbox "Select Parameter for Distribution" []]
               _ (Raise (KeyError None)) Hload Hpage); [reflexivity|].
    unfold render; simpl py_eq; cbv iota.
    unfold distribution_page, st.selectbox. rewrite Hparams, chosen_nil. reflexivity.
Qed.

Lemma parameter_pages_without_parameters_witness :
  app_script (Examples.one_file Examples.label_only_frame) (Examples.picks 3 0)
  = (Raise (KeyError None),
     preamble []
     ++ [Title "📊 Parameter Distribution";
         Selectbox "Select Parameter for Distribution" []]).
Proof.
  apply (parameter_pages_without_parameters
           (Examples.one_file Examples.label_only_frame) (Examples.picks 3 0)
           Examples.label_only_frame Distribution).
  - reflexivity.
  - distinct_names.
  - simpl. intros col [<-|[]]. reflexivity.
  - right. reflexivity.
  - reflexivity.
Defined.

(** X15: the Home page needs the cover image.  When the file cannot be
    opened, the script run on Home raises MediaFileStorageError after the
    title, the subheader and the introduction, whatever the load returned,
    and the footer is not shown. *)
Theorem home_page_without_image (w : world) (ui : UI) :
  image_files w "assets/cover.jpg" = false ->
  chosen page_options (radio_index ui) = Some (page_name Home) ->
  exists load_log intro,
    app_script w ui
    = (Raise (MediaFileStorageError "Error opening 'assets/cover.jpg'"),
       preamble load_log
       ++ [Title "💧 Water Quality Dashboard";
           Subheader "Exploratory Analysis of Water Quality Parameters";
           Markdown intro]) /\
    (load_log = [] \/ exists msg, load_log = [Error msg]).
Proof.
  intros Himg Hpage.
  assert (Hr : forall data,
             exists intro,
               render w ui (Some (page_name Home)) data
               = (Raise (MediaFileStorageError "Error opening 'assets/cover.jpg'"),
                  [Title "💧 Water Quality Dashboard";
                   Subheader "Exploratory Analysis of Water Quality Parameters";
                   Markdown intro])).
  { intros data. unfold render; simpl py_eq; cbv iota.
    unfold home_page, st.image. rewrite Himg. eexists. reflexivity. }
  destruct (load_data_contained w default_csv_path) as [[data Hl]|[msg Hl]].
  - destruct (Hr (Some data)) as [intro Hrender]. exists [], intro.
    split; [|now left].
    now rewrite (app_script_parts _ _ _ _ _ _ _ Hl Hpage Hrender).
  - destruct (Hr None) as [intro Hrender]. exists [Error msg], intro.
    split; [|right; now exists msg].
    now rewrite (app_script_parts _ _ _ _ _ _ _ Hl Hpage Hrender).
Qed.

Lemma home_page_without_image_witness :
  exists load_log intro,
    app_script {| csv_files := csv_files Examples.no_file;
                  image_files := fun _ => false |} (Examples.picks 0 0)
    = (Raise (MediaFileStorageError "Error opening 'assets/cover.jpg'"),
       preamble load_log
       ++ [Title "💧 Water Quality Dashboard";
           Subheader "Exploratory Analysis of Water Quality Parameters";
           Markdown intro]) /\
    (load_log = [] \/ exists msg, load_log = [Error msg]).
Proof.
  apply (home_page_without_image
           {| csv_files := csv_files Examples.no_file;
              image_files := fun _ => false |} (Examples.picks 0 0)).
  - reflexivity.
  - reflexivity.
Defined.

(** ** The labels of the pie chart *)

(** X16: the pie chart has one label per category counted, and when the
    Potability column of the Dataset has at least one value and no value
    other than 0 and 1, every wedge is labelled "Not Potable" or
    "Potable". *)
Theorem pie_labels_of_binary_column (data : DataFrame) (cells : list (option Q)) :
  lookup data "Potability" = Some (NumCol cells) ->
  dropna cells <> [] ->
  (forall q, In q (dropna cells) -> (q == 0 \/ q == 1)%Q) ->
  exists counts labels,
    potability_page (Some data)
    = (Ret tt,
       [Title "💧 Water Potability Summary";
        Write "### Potability Counts";
        Dataframe (TCounts counts);
        Pyplot (PieChart counts labels "Water Potability Distribution")]) /\
    length labels = length counts /\
    forall label, In label labels ->
                  label = Some "Not Potable" \/ label = Some "Potable".
Proof.
  intros Hcol Hne Hbin.
  exists (pd.value_counts (NumCol cells)),
         (map (fun vn => pie_label (fst vn)) (pd.value_counts (NumCol cells))).
  split.
  { apply potability_page_counts; [assumption|]. simpl. intros H.
    apply map_eq_nil in H. contradiction. }
  split; [apply length_map|].
  intros label Hin. apply in_map_iff in Hin as ([v n] & <- & Hin).
  apply In_value_counts in Hin. simpl in Hin.
  apply in_map_iff in Hin as (q & <- & Hq). simpl.
  destruct (Hbin q Hq) as [H0|H1].
  - apply Qeq_bool_iff in H0. rewrite H0. now left.
  - destruct (Qeq_bool q 0); [now left|].
    apply Qeq_bool_iff in H1. rewrite H1. now right.
Qed.

Lemma pie_labels_of_binary_column_witness :
  exists counts labels,
    potability_page (Some Examples.ph_frame)
    = (Ret tt,
       [Title "💧 Water Potability Summary";
        Write "### Potability Counts";
        Dataframe (TCounts counts);
        Pyplot (PieChart counts labels "Water Potability Distribution")]) /\
    length labels = length counts /\
    forall label, In label labels ->
                  label = Some "Not Potable" \/ label = Some "Potable".
Proof.
  apply (pie_labels_of_binary_column Examples.ph_frame
                                     [Some 1%Q; Some 0%Q; Some 1%Q]).
  - reflexivity.
  - simpl. discriminate.
  - simpl. intros q [<-|[<-|[<-|[]]]]; [right|left|right]; reflexivity.
Defined.
